(** * The bundle builder of timoni's engine package

    A shallow embedding of [internal/engine/bundle_builder.go]: the
    workspace stager [InitWorkspace], the overlay composer [Build] and
    the bundle extractor [GetBundle].

    The builder drives two collaborators that are not part of the
    package: the operating system (file copies and writes) and the CUE
    evaluation engine.  Both are interfaces here ([World], [Engine]);
    the builder is written once against them and every statement about
    it holds for every implementation.  A small executable engine
    ([Ref]) implements both interfaces so that the builder can be run
    on concrete inputs. *)

From Stdlib Require Import Ascii DecimalString DecimalNat.
From stdpp Require Import base list strings.

Local Open Scope string_scope.

(** ** Go errors *)

(** An [error] is either an opaque leaf (errors.New, fmt.Errorf without
    [%w], or an error made by a collaborator) or the result of
    [fmt.Errorf(prefix + "%w", inner)], which keeps [inner] reachable
    through [Unwrap]. *)
Inductive error : Type :=
| New (msg : string)
| Wrapf (prefix : string) (inner : error).

(** [err.Error()] *)
Fixpoint Error (e : error) : string :=
  match e with
  | New msg => msg
  | Wrapf prefix inner => prefix +:+ Error inner
  end.

(** [errors.Unwrap(err)] *)
Definition Unwrap (e : error) : option error :=
  match e with
  | New _ => None
  | Wrapf _ inner => Some inner
  end.

(** [fmt.Errorf(prefix + "%w", err)] where [err] may be nil: the verb
    then prints [%!w(<nil>)] and nothing is wrapped. *)
Definition Errorf_w (prefix : string) (err : option error) : error :=
  match err with
  | Some e => Wrapf prefix e
  | None => New (prefix +:+ "%!w(<nil>)")
  end.

(** A Go [(T, error)] return. *)
Inductive result (A : Type) : Type :=
| Ok (a : A)
| Fail (e : error).
Arguments Ok {A} a.
Arguments Fail {A} e.

(** ** Strings: file names and formatting *)

(** [fmt.Sprintf("%v", i)] for a slice index or length [i]; these are
    non-negative and bounded by the slice length, so the [int] never
    wraps. *)
Definition itoa (i : nat) : string := NilEmpty.string_of_uint (Nat.to_uint i).

(** [filepath.Split(path)]: everything up to and including the final
    separator, and the file name after it. *)
Fixpoint Split (path : string) : string * string :=
  match path with
  | EmptyString => ("", "")
  | String c rest =>
      let '(dir, file) := Split rest in
      if Ascii.eqb c "/"%char then (String c dir, file)
      else match dir with
           | EmptyString => ("", String c file)
           | _ => (String c dir, file)
           end
  end.

(** [fmt.Sprintf("%v.%s", i, fn)] *)
Definition staged_name (i : nat) (fn : string) : string :=
  itoa i +:+ "." +:+ fn.

(** [fmt.Sprintf("%v.schema.cue", len(b.files)+1)] *)
Definition schema_name (len : nat) : string :=
  itoa (len + 1) +:+ ".schema.cue".

(** ** The collaborators *)

(** The constants of [api/v1alpha1] the builder reads: each selector
    as the string its [String()] returns, and the embedded schema
    text. *)
Class ApiV1 := {
  BundleName : string;
  BundleInstancesSelector : string;
  BundleModuleURLSelector : string;
  BundleModuleDigestSelector : string;
  BundleModuleVersionSelector : string;
  BundleNamespaceSelector : string;
  BundleValuesSelector : string;
  BundleSchema : string;
}.

(** The operating system and the attribute injector.  Each operation
    takes the file system and returns it, possibly changed, together
    with what the Go call returns. *)
Class World := {
  FS : Type;
  (** [filepath.Join(dir, name)] *)
  Join : string → string → string;
  (** [cp.Copy(src, dst)] *)
  Copy : string → string → FS → FS * option error;
  (** [b.injector.Inject(f)] *)
  Inject : string → FS → FS * result string;
  (** [os.WriteFile(name, data, os.ModePerm)] *)
  WriteFile : string → string → FS → FS * option error;
}.

(** [build.File]: the fields [Build] reads. *)
Record File {Source : Type} := {
  Filename : string;
  Encoding : string;
  Source_ : Source;
}.
Arguments File : clear implicits.

(** [build.YAML] *)
Definition YAML : string := "yaml".

(** The evaluation engine: the [cue], [cue/load], [cue/build] and
    [encoding/yaml] calls of the builder.  [load.Instances] and
    [yaml.Extract] read the file system. *)
Class Engine `{World} := {
  Value : Type;
  Instance : Type;
  AstFile : Type;
  Source : Type;
  Path : Type;
  Selector : Type;
  (** [load.Instances(files, cfg)] with the builder's fixed [cfg] *)
  load_Instances : list string → FS → list Instance;
  (** [inst.Err] *)
  inst_Err : Instance → option error;
  (** [inst.OrphanedFiles] *)
  OrphanedFiles : Instance → list (File Source);
  (** [b.ctx.BuildInstance(inst)] *)
  BuildInstance : Instance → Value;
  (** [yaml.Extract(filename, src)] *)
  yaml_Extract : string → Source → FS → result AstFile;
  (** [b.ctx.BuildFile(a)] *)
  BuildFile : AstFile → Value;
  (** [v.Unify(w)] *)
  Unify : Value → Value → Value;
  (** [v.Err()] *)
  Err : Value → option error;
  (** [v.Validate(cue.Concrete(true))] *)
  Validate : Value → option error;
  (** [cue.ParsePath(s)] *)
  ParsePath : string → Path;
  (** [v.LookupPath(p)] *)
  LookupPath : Value → Path → Value;
  (** [v.String()] *)
  String_ : Value → result string;
  (** [v.Fields(cue.Concrete(true))], the iterator unrolled into the
      pairs [(iter.Selector(), iter.Value())] it yields *)
  Fields : Value → result (list (Selector * Value));
  (** [sel.String()] *)
  Selector_String : Selector → string;
}.

(** ** The builder's data *)

Record ModuleReference := {
  Repository : string;
  Version : string;
  Digest : string;
}.

Record BundleInstance {Value : Type} := {
  BI_Bundle : string;
  BI_Name : string;
  BI_Namespace : string;
  BI_Module : ModuleReference;
  BI_Values : Value;
}.
Arguments BundleInstance : clear implicits.

Record Bundle {Value : Type} := {
  Name : string;
  Instances : list (BundleInstance Value);
}.
Arguments Bundle : clear implicits.

(** [BundleBuilder]: [ctx] and [injector] are handles to the engine and
    the injector, which are the [Engine] and [World] instances here;
    [files] is the only field the methods assign. *)
Record BundleBuilder := {
  files : list string;
}.

(** ** Methods as state transformers

    A method runs on the builder it is called on and on the file
    system, and returns both together with its Go result. *)
Section Monad.
Context `{W : World}.

Record St := {
  this : BundleBuilder;
  disk : FS;
}.

Definition M (T : Type) : Type := St → St * result T.

Definition ret {T} (x : T) : M T := λ s, (s, Ok x).

Definition throw {T} (e : error) : M T := λ s, (s, Fail e).

Definition bind {T U} (m : M T) (k : T → M U) : M U := λ s,
  match m s with
  | (s', Ok x) => k x s'
  | (s', Fail e) => (s', Fail e)
  end.

(** [b.files], read *)
Definition get_files : M (list string) := λ s, (s, Ok (files (this s))).

(** [b.files = fl] *)
Definition set_files (fl : list string) : M unit := λ s,
  ({| this := {| files := fl |}; disk := disk s |}, Ok tt).

(** A call that may change the file system and returns [error]. *)
Definition sys (op : FS → FS * option error) : M unit := λ s,
  let '(d, r) := op (disk s) in
  ({| this := this s; disk := d |},
   match r with Some e => Fail e | None => Ok tt end).

(** A call that may change the file system and returns [(T, error)]. *)
Definition sys_val {T} (op : FS → FS * result T) : M T := λ s,
  let '(d, r) := op (disk s) in ({| this := this s; disk := d |}, r).

(** A call that only reads the file system. *)
Definition peek {T} (op : FS → T) : M T := λ s, (s, Ok (op (disk s))).

(** [if err != nil { return fmt.Errorf(prefix + "%w", err) }] *)
Definition wrapping {T} (prefix : string) (m : M T) : M T := λ s,
  match m s with
  | (s', Ok x) => (s', Ok x)
  | (s', Fail e) => (s', Fail (Wrapf prefix e))
  end.

End Monad.

Global Instance M_ret `{W : World} : MRet M := λ T, ret.
Global Instance M_bind `{W : World} : MBind M := λ T U k m, bind m k.

(** A call that only reads the file system and returns [(T, error)]. *)
Definition peek_val `{W : World} {T} (op : FS → result T) : M T :=
  λ s, (s, op (disk s)).

(** ** The builder *)
Section Builder.
Context {W : World} {E : Engine} {A : ApiV1}.

(** *** InitWorkspace *)

(** [filepath.Join(workspace, fmt.Sprintf("%v.%s", i, fn))] for the
    [i]-th source [file]. *)
Definition dstFile_of (workspace : string) (i : nat) (file : string) : string :=
  Join workspace (staged_name i (Split file).2).

(** The destinations of all sources, in order. *)
Definition staged_files (workspace : string) (src : list string) : list string :=
  imap (dstFile_of workspace) src.

(** [filepath.Join(workspace, fmt.Sprintf("%v.schema.cue", len(b.files)+1))] *)
Definition schemaFile_of (workspace : string) (src : list string) : string :=
  Join workspace (schema_name (length src)).

(** The first loop of [InitWorkspace]: [i] is the index of the head of
    [src] in [b.files], [fl] the local slice [files] so far. *)
Fixpoint copy_loop (workspace : string) (i : nat) (src fl : list string)
  : M (list string) :=
  match src with
  | [] => mret fl
  | file :: rest =>
      let dstFile := dstFile_of workspace i file in
      let fl := (fl ++ [dstFile])%list in
      sys (Copy file dstFile);;
      copy_loop workspace (S i) rest fl
  end.

(** The second loop: inject every staged file in place. *)
Fixpoint inject_loop (fl : list string) : M unit :=
  match fl with
  | [] => mret tt
  | f :: rest =>
      let fn := (Split f).2 in
      data ← wrapping ("failed to inject " +:+ fn +:+ ": ") (sys_val (Inject f));
      wrapping ("failed to inject " +:+ fn +:+ ": ") (sys (WriteFile f data));;
      inject_loop rest
  end.

Definition InitWorkspace (workspace : string) : M unit :=
  src ← get_files;
  fl ← copy_loop workspace 0 src [];
  inject_loop fl;;
  src' ← get_files;
  let schemaFile := schemaFile_of workspace src' in
  let fl := (fl ++ [schemaFile])%list in
  sys (WriteFile schemaFile BundleSchema);;
  set_files fl.

(** *** Build *)

(** The loop over [inst.OrphanedFiles]. *)
Fixpoint unify_orphans (v : Value) (orphans : list (File Source)) : M Value :=
  match orphans with
  | [] => mret v
  | f :: rest =>
      if String.eqb (Encoding f) YAML then
        a ← peek_val (yaml_Extract (Filename f) (Source_ f));
        unify_orphans (Unify v (BuildFile a)) rest
      else unify_orphans v rest
  end.

(** What [Build] does with the loaded instance [ix[0]]. *)
Definition build_instance (inst : Instance) : M Value :=
  match inst_Err inst with
  | Some e => throw (Wrapf "instance error: " e)
  | None =>
      v ← unify_orphans (BuildInstance inst) (OrphanedFiles inst);
      match Err v with
      | Some e => throw e
      | None =>
          match Validate v with
          | Some e => throw e
          | None => mret v
          end
      end
  end.

Definition Build : M Value :=
  fl ← get_files;
  ix ← peek (load_Instances fl);
  match ix with
  | [] => throw (New "no instances found")
  | inst :: _ => build_instance inst
  end.

(** *** GetBundle *)

(** [s, _ := v.String()]: cue returns the empty string together with a
    non-nil error, and the error is dropped. *)
Definition string_or_empty (r : result string) : string :=
  match r with
  | Ok s => s
  | Fail _ => ""
  end.

(** The body of the loop over the instances iterator. *)
Definition instance_of (bundleName : string) (entry : Selector * Value)
  : BundleInstance Value :=
  let name := Selector_String entry.1 in
  let expr := entry.2 in
  let vURL := LookupPath expr (ParsePath BundleModuleURLSelector) in
  let url := string_or_empty (String_ vURL) in
  let vDigest := LookupPath expr (ParsePath BundleModuleDigestSelector) in
  let digest := string_or_empty (String_ vDigest) in
  let vVersion := LookupPath expr (ParsePath BundleModuleVersionSelector) in
  let version := string_or_empty (String_ vVersion) in
  let vNamespace := LookupPath expr (ParsePath BundleNamespaceSelector) in
  let namespace := string_or_empty (String_ vNamespace) in
  let values := LookupPath expr (ParsePath BundleValuesSelector) in
  {| BI_Bundle := bundleName;
     BI_Name := name;
     BI_Namespace := namespace;
     BI_Module := {| Repository := url; Version := version; Digest := digest |};
     BI_Values := values |}.

(** [for iter.Next() { list = append(list, ...) }] *)
Definition collect (bundleName : string) (iter : list (Selector * Value))
  : list (BundleInstance Value) :=
  fold_left (λ list entry, (list ++ [instance_of bundleName entry])%list) iter [].

Definition GetBundle (v : Value) : result (Bundle Value) :=
  let bundleNameValue := LookupPath v (ParsePath BundleName) in
  match String_ bundleNameValue with
  | Fail _ =>
      Fail (Errorf_w ("lookup " +:+ BundleName +:+ " failed: ")
                     (Err bundleNameValue))
  | Ok bundleName =>
      let instances := LookupPath v (ParsePath BundleInstancesSelector) in
      match Err instances with
      | Some e =>
          Fail (Wrapf ("lookup " +:+ BundleInstancesSelector +:+ " failed: ") e)
      | None =>
          match Fields instances with
          | Fail e => Fail e
          | Ok iter =>
              Ok {| Name := bundleName; Instances := collect bundleName iter |}
          end
      end
  end.

End Builder.

(** ** A reference engine

    An executable stand-in for the two collaborators: documents are
    trees of string scalars, the file system is a list of written
    files, and a source text is a sequence of lines
    [dotted.path: scalar].  It is what the builder is run on in the
    examples below. *)
Module Ref.

(** A document of the engine: an evaluation error, the unconstrained
    value [_], a concrete scalar, or a struct with ordered fields. *)
#[warnings="-register-all"]
Inductive Doc : Type :=
| Bottom (e : error)
| Top
| Str (s : string)
| Struct (fields : list (string * Doc)).

Definition dotted (p : list string) : string := String.concat "." p.

(** The error of two incompatible values at path [p]. *)
Definition conflict (p : list string) : error :=
  New (dotted p +:+ ": conflicting values").

(** The first field labelled [k]. *)
Fixpoint field (k : string) (fl : list (string * Doc)) : option Doc :=
  match fl with
  | [] => None
  | (k', v) :: rest => if String.eqb k k' then Some v else field k rest
  end.

Definition has_field (k : string) (fl : list (string * Doc)) : bool :=
  match field k fl with Some _ => true | None => false end.

(** Modelled from the spec: the per-key step of the engine's
    unification.  The fields of [fa], each unified by [u] with the
    field of [fb] that has its label; a field without a partner is
    kept as it is, and the first error ends the merge. *)
Fixpoint merge_fields (u : string → Doc → Doc → Doc)
    (fb fa : list (string * Doc)) : result (list (string * Doc)) :=
  match fa with
  | [] => Ok []
  | (k, va) :: rest =>
      let v := match field k fb with
               | Some vb => u k va vb
               | None => va
               end in
      match v with
      | Bottom e => Fail e
      | _ =>
          match merge_fields u fb rest with
          | Ok r => Ok ((k, v) :: r)
          | Fail e => Fail e
          end
      end
  end.

(** Modelled from the spec: the unification operation of the
    evaluation engine ([cue.Value.Unify]), which the builder calls and
    which is not part of the repository.  Equal scalars unify to that
    scalar and unequal concrete scalars are a conflict; structs unify
    per matching key, keys of one side only pass through unchanged, and
    a nested conflict makes the whole result a conflict error that
    names the full path of the field.  [p] is the path of [a] and [b]
    in the documents being unified. *)
Fixpoint unify (p : list string) (a b : Doc) {struct a} : Doc :=
  match a, b with
  | Bottom e, _ => Bottom e
  | _, Bottom e => Bottom e
  | Top, _ => b
  | _, Top => a
  | Str x, Str y => if String.eqb x y then Str x else Bottom (conflict p)
  | Struct fa, Struct fb =>
      match merge_fields (λ k va vb, unify (p ++ [k]) va vb) fb fa with
      | Fail e => Bottom e
      | Ok r => Struct (r ++ List.filter (λ kv, negb (has_field kv.1 fa)) fb)
      end
  | _, _ => Bottom (conflict p)
  end.

(** The value at path [p], when every field on the way exists. *)
Fixpoint get (p : list string) (v : Doc) : option Doc :=
  match p with
  | [] => Some v
  | k :: q =>
      match v with
      | Struct fl => match field k fl with Some w => get q w | None => None end
      | _ => None
      end
  end.

(** Modelled from the spec: the engine's concreteness check.  The
    first error or unresolved field of [v], in field order, named by
    its path; [p] is the path of [v]. *)
Fixpoint incomplete (p : list string) (v : Doc) : option error :=
  match v with
  | Bottom e => Some e
  | Top => Some (New (dotted p +:+ ": incomplete value"))
  | Str _ => None
  | Struct fl =>
      (fix fields (fl : list (string * Doc)) : option error :=
         match fl with
         | [] => None
         | (k, w) :: rest =>
             match incomplete (p ++ [k]) w with
             | Some e => Some e
             | None => fields rest
             end
         end) fl
  end.


Fixpoint distinct_labels (fl : list (string * Doc)) : bool :=
  match fl with
  | [] => true
  | (k, _) :: rest => negb (has_field k rest) && distinct_labels rest
  end.

(** A document without errors in which no struct repeats a label. *)
Fixpoint well_formed (v : Doc) : bool :=
  match v with
  | Bottom _ => false
  | Top | Str _ => true
  | Struct fl =>
      distinct_labels fl &&
      (fix all (fl : list (string * Doc)) : bool :=
         match fl with
         | [] => true
         | (_, w) :: rest => well_formed w && all rest
         end) fl
  end.

(** *** Source text *)

(** [s] cut at every [sep]. *)
Fixpoint split_on (sep : ascii) (s : string) : list string :=
  match s with
  | EmptyString => [""]
  | String c rest =>
      match split_on sep rest with
      | [] => [""]
      | w :: ws =>
          if Ascii.eqb c sep then "" :: w :: ws else String c w :: ws
      end
  end.

(** [s] cut at the first colon followed by a space. *)
Fixpoint cut (s : string) : option (string * string) :=
  match s with
  | EmptyString => None
  | String c rest =>
      match rest with
      | String " " rest' =>
          if Ascii.eqb c ":" then Some ("", rest')
          else match cut rest with
               | Some (k, v) => Some (String c k, v)
               | None => None
               end
      | _ =>
          match cut rest with
          | Some (k, v) => Some (String c k, v)
          | None => None
          end
      end
  end.

(** The document with the one field [p] set to [leaf]. *)
Definition single (p : list string) (leaf : Doc) : Doc :=
  fold_right (λ k v, Struct [(k, v)]) leaf p.

Definition parse_line (l : string) : Doc :=
  match cut l with
  | Some (k, v) =>
      single (split_on "." k) (if String.eqb v "_" then Top else Str v)
  | None => Bottom (New ("syntax error: " +:+ l))
  end.

(** A text is the unification of its lines. *)
Definition parse (text : string) : Doc :=
  fold_left (λ acc l, if String.eqb l "" then acc
                      else unify [] acc (parse_line l))
            (split_on "010" text) (Struct []).

(** The part of a file name after its last dot. *)
Definition ext (name : string) : string :=
  List.last (split_on "." name) "".

(** *** The file system *)

(** Files as written, the latest first. *)
Definition Disk : Type := list (string * string).

Fixpoint read (name : string) (fs : Disk) : option string :=
  match fs with
  | [] => None
  | (n, data) :: rest => if String.eqb name n then Some data else read name rest
  end.

Definition not_exist (name : string) : error :=
  New ("open " +:+ name +:+ ": no such file or directory").

Definition copy (src dst : string) (fs : Disk) : Disk * option error :=
  match read src fs with
  | Some data => ((dst, data) :: fs, None)
  | None => (fs, Some (not_exist src))
  end.

Definition write_file (name data : string) (fs : Disk) : Disk * option error :=
  ((name, data) :: fs, None).

(** A line that starts with [@] is a marker no value was supplied
    for. *)
Definition unresolved (l : string) : bool :=
  match l with
  | String "@" _ => true
  | _ => false
  end.

(** Modelled from the spec: the attribute injector
    ([internal/engine/injector.go], which [InitWorkspace] calls).  It
    reads the staged file and fails on a marker it cannot resolve;
    text without markers is returned as it is. *)
Definition inject (f : string) (fs : Disk) : Disk * result string :=
  match read f fs with
  | None => (fs, Fail (not_exist f))
  | Some text =>
      match List.find unresolved (split_on "010" text) with
      | Some l => (fs, Fail (New ("unresolved attribute " +:+ l)))
      | None => (fs, Ok text)
      end
  end.

#[export] Instance world : World := {|
  FS := Disk;
  Join dir name := dir +:+ "/" +:+ name;
  Copy := copy;
  Inject := inject;
  WriteFile := write_file;
|}.

(** *** Loading *)

(** A loaded instance: its error slot, the data files set aside, and
    the unification of its source files. *)
Record Loaded := {
  l_Err : option error;
  l_Orphaned : list (File string);
  l_Root : Doc;
}.

Definition encoding_of (name : string) : string :=
  if String.eqb (ext name) "yml" then YAML else ext name.

(** Modelled from the spec: the engine's loader.  Files ending in
    [.cue] are sources and are unified into one value, every other
    file is set aside as a data file with the encoding of its
    extension; a file that cannot be read fills the error slot. *)
Fixpoint load (names : list string) (fs : Disk) (inst : Loaded) : Loaded :=
  match names with
  | [] => inst
  | f :: rest =>
      match read f fs with
      | None =>
          {| l_Err := Some (not_exist f);
             l_Orphaned := l_Orphaned inst;
             l_Root := l_Root inst |}
      | Some text =>
          if String.eqb (ext f) "cue" then
            load rest fs {| l_Err := l_Err inst;
                            l_Orphaned := l_Orphaned inst;
                            l_Root := unify [] (l_Root inst) (parse text) |}
          else
            load rest fs {| l_Err := l_Err inst;
                            l_Orphaned := l_Orphaned inst ++
                              [{| Filename := f;
                                  Encoding := encoding_of f;
                                  Source_ := text |}];
                            l_Root := l_Root inst |}
      end
  end.

Definition load_all (names : list string) (fs : Disk) : list Loaded :=
  match names with
  | [] => []
  | _ => [load names fs {| l_Err := None; l_Orphaned := []; l_Root := Struct [] |}]
  end.

(** Modelled from the spec: parsing a data file into a value. *)
Definition extract (filename text : string) (fs : Disk) : result Doc :=
  match parse text with
  | Bottom e => Fail (Wrapf (filename +:+ ": ") e)
  | v => Ok v
  end.

(** The error of a value that is one. *)
Definition value_err (v : Doc) : option error :=
  match v with
  | Bottom e => Some e
  | _ => None
  end.

(** Modelled from the spec: path lookup; a missing path is an error
    value. *)
Definition lookup_path (v : Doc) (p : list string) : Doc :=
  match v with
  | Bottom e => Bottom e
  | _ =>
      match get p v with
      | Some w => w
      | None => Bottom (New ("field not found: " +:+ dotted p))
      end
  end.

(** Modelled from the spec: scalar extraction. *)
Definition as_string (v : Doc) : result string :=
  match v with
  | Str s => Ok s
  | Bottom e => Fail e
  | _ => Fail (New "cannot use value as string")
  end.

(** Modelled from the spec: iteration over the fields of a mapping,
    in their order. *)
Definition fields_of (v : Doc) : result (list (string * Doc)) :=
  match v with
  | Struct fl => Ok fl
  | Bottom e => Fail e
  | _ => Fail (New "cannot range over value")
  end.

#[export] Instance engine : Engine := {|
  Value := Doc;
  Instance := Loaded;
  AstFile := Doc;
  Source := string;
  Path := list string;
  Selector := string;
  load_Instances := load_all;
  inst_Err := l_Err;
  OrphanedFiles := l_Orphaned;
  BuildInstance := l_Root;
  yaml_Extract := extract;
  BuildFile a := a;
  Unify := unify [];
  Err := value_err;
  Validate := incomplete [];
  ParsePath := split_on ".";
  LookupPath := lookup_path;
  String_ := as_string;
  Fields := fields_of;
  Selector_String sel := sel;
|}.

Definition nl : string := String "010" "".

(** Modelled from the spec: the constants of [api/v1alpha1].  A
    bundle-name path and an instances path at the top, the module
    reference, namespace and values paths inside an instance, and a
    schema, in the syntax of this engine, that asks for the two
    top-level paths. *)
#[export] Instance api : ApiV1 := {|
  BundleName := "bundle.name";
  BundleInstancesSelector := "bundle.instances";
  BundleModuleURLSelector := "module.url";
  BundleModuleDigestSelector := "module.digest";
  BundleModuleVersionSelector := "module.version";
  BundleNamespaceSelector := "namespace";
  BundleValuesSelector := "values";
  BundleSchema := "bundle.name: _" +:+ nl +:+ "bundle.instances: _";
|}.

End Ref.

(** ** Inputs for the examples *)
Module Examples.
Import Ref.

(** A bundle with one instance, a YAML override for its namespace and a
    text file next to them. *)
Definition sources : St := {|
  this := {| files := ["/src/bundle.cue"; "/src/over.yaml"; "/src/notes.txt"] |};
  disk := [("/src/bundle.cue",
            "bundle.name: demo" +:+ nl +:+
            "bundle.instances.redis.module.url: oci://registry/redis" +:+ nl +:+
            "bundle.instances.redis.namespace: _");
           ("/src/over.yaml", "bundle.instances.redis.namespace: prod");
           ("/src/notes.txt", "bundle.name: other")];
|}.

(** The same list when the second file does not exist. *)
Definition sources_missing : St := {|
  this := {| files := ["/src/bundle.cue"; "/src/over.yaml"] |};
  disk := [("/src/bundle.cue", "bundle.name: demo")];
|}.

(** A source with an attribute the injector has no value for. *)
Definition sources_unresolved : St := {|
  this := {| files := ["/src/bundle.cue"] |};
  disk := [("/src/bundle.cue", "bundle.name: demo" +:+ nl +:+ "@timoni(runtime:string:TOKEN)")];
|}.

(** A staged workspace in which the namespace of the instance is left
    unresolved. *)
Definition staged_open : St := {|
  this := {| files := ["/ws/0.bundle.cue"; "/ws/2.schema.cue"] |};
  disk := [("/ws/0.bundle.cue",
            "bundle.name: demo" +:+ nl +:+
            "bundle.instances.redis.module.url: oci://registry/redis" +:+ nl +:+
            "bundle.instances.redis.namespace: _");
           ("/ws/2.schema.cue", BundleSchema)];
|}.

(** A concrete tree whose only instance has a module version and no
    module URL. *)
Definition tree_without_url : Doc :=
  Struct [("bundle", Struct [
    ("name", Str "demo");
    ("instances", Struct [
      ("redis", Struct [("module", Struct [("version", Str "7.2.1")])])])])].

(** A concrete tree with two instances. *)
Definition tree_two : Doc :=
  Struct [("bundle", Struct [
    ("name", Str "demo");
    ("instances", Struct [
      ("redis", Struct [("module", Struct [("url", Str "oci://registry/redis")]);
                        ("namespace", Str "cache")]);
      ("podinfo", Struct [("module", Struct [("url", Str "oci://registry/podinfo");
                                             ("digest", Str "sha256:0a1b")])])])])].

(** What [GetBundle] makes of [tree_two]. *)
Definition bundle_two : Bundle Doc := {|
  Name := "demo";
  Instances := [
    {| BI_Bundle := "demo";
       BI_Name := "redis";
       BI_Namespace := "cache";
       BI_Module := {| Repository := "oci://registry/redis";
                       Version := ""; Digest := "" |};
       BI_Values := Bottom (New "field not found: values") |};
    {| BI_Bundle := "demo";
       BI_Name := "podinfo";
       BI_Namespace := "";
       BI_Module := {| Repository := "oci://registry/podinfo";
                       Version := ""; Digest := "sha256:0a1b" |};
       BI_Values := Bottom (New "field not found: values") |}];
|}.

Definition over_c : Doc := parse "server.port: 9090".

End Examples.

(** ** More of the builder *)

(** [NewBundleBuilder(ctx, files)]: a nil [ctx] is replaced by a fresh
    context; the context and the injector made from it are the
    [Engine] and [World] instances here. *)
Definition NewBundleBuilder (fl : list string) : BundleBuilder :=
  {| files := fl |}.

Section Phases.
Context {W : World}.

(** The file system after the copies of the first loop of
    [InitWorkspace] when each of them returns nil; [src] are the
    sources from the [i]-th on. *)
Fixpoint copy_all (workspace : string) (i : nat) (src : list string) (d : FS)
  : option FS :=
  match src with
  | [] => Some d
  | file :: rest =>
      match Copy file (dstFile_of workspace i file) d with
      | (d', None) => copy_all workspace (S i) rest d'
      | (_, Some _) => None
      end
  end.

(** The file system after the second loop when every injection and
    every write-back returns nil. *)
Fixpoint inject_all (fl : list string) (d : FS) : option FS :=
  match fl with
  | [] => Some d
  | f :: rest =>
      match Inject f d with
      | (d1, Ok data) =>
          match WriteFile f data d1 with
          | (d2, None) => inject_all rest d2
          | (_, Some _) => None
          end
      | (_, Fail _) => None
      end
  end.

End Phases.


(** ** More inputs for the examples *)
Module MoreExamples.
Import Ref.

(** Two sources with the same file name in different directories. *)
Definition sources_same_name : St := {|
  this := NewBundleBuilder ["/a/values.cue"; "/b/values.cue"];
  disk := [("/a/values.cue", "bundle.name: demo");
           ("/b/values.cue", "bundle.instances.redis.namespace: cache")];
|}.

(** A builder without sources. *)
Definition no_sources : St := {|
  this := NewBundleBuilder [];
  disk := [];
|}.

(** A staged workspace whose first data file contradicts the source
    and whose second data file is not a document. *)
Definition staged_bad_yaml : St := {|
  this := NewBundleBuilder ["/ws/0.bundle.cue"; "/ws/1.name.yaml";
                            "/ws/2.broken.yaml"; "/ws/4.schema.cue"];
  disk := [("/ws/0.bundle.cue",
            "bundle.name: demo" +:+ nl +:+
            "bundle.instances.redis.namespace: prod");
           ("/ws/1.name.yaml", "bundle.name: other");
           ("/ws/2.broken.yaml", "no mapping here");
           ("/ws/4.schema.cue", BundleSchema)];
|}.

(** A tree whose bundle name is a struct, not a string. *)
Definition tree_name_struct : Doc :=
  Struct [("bundle", Struct [
    ("name", Struct [("first", Str "demo")]);
    ("instances", Struct [])])].

(** A staged workspace whose source has a line that is no field. *)
Definition staged_syntax : St := {|
  this := NewBundleBuilder ["/ws/0.bundle.cue"; "/ws/2.schema.cue"];
  disk := [("/ws/0.bundle.cue",
            "bundle.name: demo" +:+ nl +:+ "no mapping here");
           ("/ws/2.schema.cue", BundleSchema)];
|}.

(** A world in which the path of the schema file of a single source is
    taken by a directory: as [world], but a write to
    [/ws/2.schema.cue] fails. *)
Definition world_blocked : World := {|
  FS := Disk;
  Join dir name := dir +:+ "/" +:+ name;
  Copy := copy;
  Inject := inject;
  WriteFile name data fs :=
    if String.eqb name "/ws/2.schema.cue"
    then (fs, Some (New ("open " +:+ name +:+ ": is a directory")))
    else write_file name data fs;
|}.

(** One source in that world. *)
Definition sources_blocked : @St world_blocked :=
  @Build_St world_blocked (NewBundleBuilder ["/src/bundle.cue"])
    ([("/src/bundle.cue", "bundle.name: demo")] : Disk).

End MoreExamples.

(** * Properties *)

Ltac unfold_M :=
  unfold mbind, M_bind, mret, M_ret, bind, ret, throw, sys, sys_val, peek,
    peek_val, wrapping, get_files, set_files in *.

(** ** Staged file names *)

Example Split_nested : Split "/src/values/prod.yaml" = ("/src/values/", "prod.yaml").
Proof. reflexivity. Qed.

Example Split_bare : Split "bundle.cue" = ("", "bundle.cue").
Proof. reflexivity. Qed.

Example Split_trailing : Split "/src/values/" = ("/src/values/", "").
Proof. reflexivity. Qed.

Example itoa_12 : itoa 12 = "12" ∧ itoa 0 = "0".
Proof. by split. Qed.

(** The two parts of [Split] make up the path. *)
Lemma Split_app path : (Split path).1 +:+ (Split path).2 = path.
Proof.
  induction path as [|c rest IH]; simpl; [done|].
  destruct (Split rest) as [dir file]. simpl in *.
  destruct (Ascii.eqb c "/"); [by rewrite <-IH|].
  destruct dir; by rewrite <-IH.
Qed.

(** The file part holds no separator. *)
Lemma Split_file path : "/"%char ∉ String.list_ascii_of_string (Split path).2.
Proof.
  induction path as [|c rest IH]; simpl; [by intros ?%elem_of_nil|].
  destruct (Split rest) as [dir file]. simpl in *.
  destruct (Ascii.eqb c "/") eqn:Hc; [done|].
  destruct dir; [|done]. simpl.
  intros [Heq|?]%elem_of_cons; [|done]. subst c.
  by rewrite Ascii.eqb_refl in Hc.
Qed.

Lemma string_of_uint_dot d : ∀ d' x y,
  NilEmpty.string_of_uint d +:+ "." +:+ x
  = NilEmpty.string_of_uint d' +:+ "." +:+ y → d = d'.
Proof.
  induction d as [|d IH|d IH|d IH|d IH|d IH|d IH|d IH|d IH|d IH|d IH];
    intros [|d'|d'|d'|d'|d'|d'|d'|d'|d'|d'] x y; simpl;
    intros H; try discriminate; try done;
    injection H as H; f_equal; by eapply IH.
Qed.

Lemma itoa_dot i j x y :
  itoa i +:+ "." +:+ x = itoa j +:+ "." +:+ y → i = j.
Proof.
  unfold itoa. intros H%string_of_uint_dot.
  rewrite <-(Unsigned.of_to i), <-(Unsigned.of_to j). by rewrite H.
Qed.


Section BuilderFacts.
Context {W : World} {E : Engine} {A : ApiV1}.

(** ** InitWorkspace *)

Lemma copy_loop_this ws src : ∀ i fl s s' r,
  copy_loop ws i src fl s = (s', r) → this s' = this s.
Proof.
  induction src as [|file rest IH]; intros i fl s s' r; simpl.
  - unfold_M. by intros [= <- _].
  - unfold_M. destruct (Copy _ _ _) as [d [e|]]; simpl.
    + by intros [= <- _].
    + intros H. by apply IH in H.
Qed.

Lemma copy_loop_Ok ws src : ∀ i fl s s' fl',
  copy_loop ws i src fl s = (s', Ok fl') →
  fl' = (fl ++ imap (λ j, dstFile_of ws (i + j)) src)%list ∧
  ∃ ds : list FS,
    length ds = S (length src) ∧ ds !! 0 = Some (disk s) ∧
    ds !! length src = Some (disk s') ∧
    ∀ j file, src !! j = Some file →
      ∃ d d', ds !! j = Some d ∧ ds !! S j = Some d' ∧
              Copy file (dstFile_of ws (i + j) file) d = (d', None).
Proof.
  induction src as [|file rest IH]; intros i fl s s' fl'; simpl.
  - unfold_M. intros [= <- <-]. split; [by rewrite app_nil_r|].
    exists [disk s]. repeat split; done.
  - unfold_M. destruct (Copy _ _ _) as [d [e|]] eqn:HC; simpl; [done|].
    intros H. apply IH in H as (-> & ds & Hlen & H0 & Hlast & Hall). split.
    + rewrite <-app_assoc. simpl. do 2 f_equal.
      * by rewrite Nat.add_0_r.
      * apply imap_ext. intros j x _. simpl. f_equal. lia.
    + exists (disk s :: ds). simpl.
      split; [by rewrite Hlen|]. split; [done|]. split; [done|].
      intros [|j] file' Hj; simpl in *.
      * injection Hj as <-. exists (disk s), d. rewrite Nat.add_0_r.
        by rewrite H0.
      * destruct (Hall j file' Hj) as (d1 & d2 & ? & ? & HC').
        exists d1, d2. split; [done|]. split; [done|].
        by replace (i + S j) with (S i + j) by lia.
Qed.

Lemma copy_loop_Fail ws src : ∀ i fl s s' e,
  copy_loop ws i src fl s = (s', Fail e) →
  ∃ j file d d', src !! j = Some file ∧
    Copy file (dstFile_of ws (i + j) file) d = (d', Some e).
Proof.
  induction src as [|file rest IH]; intros i fl s s' e; simpl.
  - unfold_M. done.
  - unfold_M. destruct (Copy _ _ _) as [d [e'|]] eqn:HC; simpl.
    + intros [= _ <-]. exists 0, file, (disk s), d. by rewrite Nat.add_0_r.
    + intros H. apply IH in H as (j & file' & d1 & d2 & Hj & HC').
      exists (S j), file', d1, d2. split; [done|].
      by replace (i + S j) with (S i + j) by lia.
Qed.

Lemma inject_loop_this fl : ∀ s s' r,
  inject_loop fl s = (s', r) → this s' = this s.
Proof.
  induction fl as [|f rest IH]; intros s s' r; simpl; unfold_M.
  - by intros [= <- _].
  - destruct (Inject _ _) as [d [data|e]]; simpl; [|by intros [= <- _]].
    destruct (WriteFile _ _ _) as [d' [e|]]; simpl; [by intros [= <- _]|].
    intros H. by apply IH in H.
Qed.

Lemma inject_loop_Ok fl : ∀ s s',
  inject_loop fl s = (s', Ok tt) →
  ∀ f, f ∈ fl →
    ∃ d d1 d2 data, Inject f d = (d1, Ok data) ∧ WriteFile f data d1 = (d2, None).
Proof.
  induction fl as [|f rest IH]; intros s s'; simpl; unfold_M.
  - intros _ f Hf. by apply elem_of_nil in Hf.
  - destruct (Inject _ _) as [d [data|e]] eqn:HI; simpl; [|done].
    destruct (WriteFile _ _ _) as [d' [e|]] eqn:HW; simpl; [done|].
    intros H f' [->|Hf]%elem_of_cons.
    + by exists (disk s), d, d', data.
    + by eapply IH.
Qed.

Lemma inject_loop_Fail fl : ∀ s s' e,
  inject_loop fl s = (s', Fail e) →
  ∃ f e0, f ∈ fl ∧
    e = Wrapf ("failed to inject " +:+ (Split f).2 +:+ ": ") e0 ∧
    ((∃ d d', Inject f d = (d', Fail e0)) ∨
     (∃ data d d', WriteFile f data d = (d', Some e0))).
Proof.
  induction fl as [|f rest IH]; intros s s' e; simpl; unfold_M; [done|].
  destruct (Inject _ _) as [d [data|e1]] eqn:HI; simpl.
  - destruct (WriteFile _ _ _) as [d' [e1|]] eqn:HW; simpl.
    + intros [= _ <-]. exists f, e1. split; [by left|]. split; [done|].
      right. by exists data, d, d'.
    + intros H. apply IH in H as (f' & e0 & Hf & -> & Horigin).
      exists f', e0. split; [by right|]. done.
  - intros [= _ <-]. exists f, e1. split; [by left|]. split; [done|].
    left. by exists (disk s), d.
Qed.

(** A successful [InitWorkspace]: the builder's list is the staged
    files followed by the schema file, every call returned nil, and the
    schema write is the last change of the file system. *)
Lemma InitWorkspace_Ok ws s s' u :
  InitWorkspace ws s = (s', Ok u) →
  let src := files (this s) in
  files (this s') = (staged_files ws src ++ [schemaFile_of ws src])%list ∧
  (∃ ds : list FS,
    length ds = S (length src) ∧ ds !! 0 = Some (disk s) ∧
    ∀ j file, src !! j = Some file →
      ∃ d d', ds !! j = Some d ∧ ds !! S j = Some d' ∧
              Copy file (dstFile_of ws j file) d = (d', None)) ∧
  (∀ f, f ∈ staged_files ws src →
    ∃ d d1 d2 data, Inject f d = (d1, Ok data) ∧ WriteFile f data d1 = (d2, None)) ∧
  (∃ d, WriteFile (schemaFile_of ws src) BundleSchema d = (disk s', None)).
Proof.
  unfold InitWorkspace. unfold_M.
  destruct (copy_loop ws 0 (files (this s)) [] s) as [s1 [fl|e]] eqn:HC; [|done].
  pose proof (copy_loop_this _ _ _ _ _ _ _ HC) as Ht1.
  apply copy_loop_Ok in HC as (-> & ds & Hlen & H0 & _ & Hall). simpl in *.
  destruct (inject_loop _ s1) as [s2 [[]|e]] eqn:HI; [|done].
  pose proof (inject_loop_this _ _ _ _ HI) as Ht2.
  pose proof (inject_loop_Ok _ _ _ HI) as Hinj.
  destruct (WriteFile _ _ (disk s2)) as [d [e|]] eqn:HW; simpl; [done|].
  intros [= <- _]. simpl. rewrite Ht2, Ht1 in *.
  split; [done|]. split; [by exists ds|]. split; [done|]. by exists (disk s2).
Qed.

(** A failed [InitWorkspace]: the builder is as it was, and the error
    is the one a call returned, wrapped for the injection step only. *)
Lemma InitWorkspace_Fail ws s s' e :
  InitWorkspace ws s = (s', Fail e) →
  let src := files (this s) in
  this s' = this s ∧
  ((∃ j file d d', src !! j = Some file ∧
      Copy file (dstFile_of ws j file) d = (d', Some e)) ∨
   (∃ f e0, f ∈ staged_files ws src ∧
      e = Wrapf ("failed to inject " +:+ (Split f).2 +:+ ": ") e0 ∧
      ((∃ d d', Inject f d = (d', Fail e0)) ∨
       (∃ data d d', WriteFile f data d = (d', Some e0)))) ∨
   (∃ d d', WriteFile (schemaFile_of ws src) BundleSchema d = (d', Some e))).
Proof.
  unfold InitWorkspace. unfold_M.
  destruct (copy_loop ws 0 (files (this s)) [] s) as [s1 [fl|e1]] eqn:HC.
  - pose proof (copy_loop_this _ _ _ _ _ _ _ HC) as Ht1.
    apply copy_loop_Ok in HC as (-> & _). simpl in *.
    destruct (inject_loop _ s1) as [s2 [[]|e2]] eqn:HI.
    + pose proof (inject_loop_this _ _ _ _ HI) as Ht2.
      destruct (WriteFile _ _ (disk s2)) as [d [e3|]] eqn:HW; simpl; [|done].
      intros [= <- <-]. simpl. rewrite Ht2, Ht1 in *. split; [done|].
      right. right. by exists (disk s2), d.
    + pose proof (inject_loop_this _ _ _ _ HI) as Ht2.
      intros [= <- <-]. split; [congruence|]. right. left.
      by apply inject_loop_Fail in HI.
  - pose proof (copy_loop_this _ _ _ _ _ _ _ HC) as Ht1.
    intros [= <- <-]. split; [done|]. left.
    by apply copy_loop_Fail in HC.
Qed.

(** ** Build *)

Lemma unify_orphans_state orphans : ∀ v s,
  (unify_orphans v orphans s).1 = s.
Proof.
  induction orphans as [|f rest IH]; intros v s; simpl; [done|].
  destruct (String.eqb _ _); [|apply IH]. unfold_M.
  destruct (yaml_Extract _ _ _) as [a|e]; [apply IH|done].
Qed.

Lemma unify_orphans_app pre post : ∀ v s,
  unify_orphans v (pre ++ post) s =
  match unify_orphans v pre s with
  | (s', Ok w) => unify_orphans w post s'
  | (s', Fail e) => (s', Fail e)
  end.
Proof.
  induction pre as [|f rest IH]; intros v s; simpl; [done|].
  destruct (String.eqb _ _); [|apply IH]. unfold_M.
  destruct (yaml_Extract _ _ _) as [a|e]; [apply IH|done].
Qed.

Lemma build_instance_state inst s : (build_instance inst s).1 = s.
Proof.
  unfold build_instance. destruct (inst_Err inst); [done|]. unfold_M.
  pose proof (unify_orphans_state (OrphanedFiles inst) (BuildInstance inst) s) as H.
  destruct (unify_orphans _ _ s) as [s1 [v|e]]; simpl in *; subst; [|done].
  destruct (Err v); [done|]. by destruct (Validate v).
Qed.

Lemma Build_state s : (Build s).1 = s.
Proof.
  unfold Build. unfold_M.
  destruct (load_Instances _ _) as [|inst ix]; [done|].
  apply build_instance_state.
Qed.

(** [Build] returns a value exactly when an instance was loaded without
    error, every YAML data file was merged, and the merged value has no
    error and is concrete; the value is the merged value itself. *)
Lemma Build_Ok s s' v :
  Build s = (s', Ok v) ↔
  s' = s ∧
  ∃ inst ix,
    load_Instances (files (this s)) (disk s) = inst :: ix ∧
    inst_Err inst = None ∧
    unify_orphans (BuildInstance inst) (OrphanedFiles inst) s = (s, Ok v) ∧
    Err v = None ∧ Validate v = None.
Proof.
  unfold Build, build_instance. unfold_M. split.
  - destruct (load_Instances _ _) as [|inst ix] eqn:HL; [done|].
    destruct (inst_Err inst) eqn:HI; [done|].
    pose proof (unify_orphans_state (OrphanedFiles inst) (BuildInstance inst) s) as Hs.
    destruct (unify_orphans _ _ s) as [s1 [w|e]] eqn:HU; simpl in Hs; subst s1; [|done].
    destruct (Err w) eqn:HE; [done|]. destruct (Validate w) eqn:HV; [done|].
    intros [= <- <-]. split; [done|]. by exists inst, ix.
  - intros (-> & inst & ix & -> & -> & -> & -> & ->). done.
Qed.

(** The errors of [Build], by the step that found them. *)
Lemma Build_Fail s s' e :
  Build s = (s', Fail e) →
  (load_Instances (files (this s)) (disk s) = [] ∧ e = New "no instances found") ∨
  ∃ inst ix, load_Instances (files (this s)) (disk s) = inst :: ix ∧
    ((∃ e0, inst_Err inst = Some e0 ∧ e = Wrapf "instance error: " e0) ∨
     (inst_Err inst = None ∧
      unify_orphans (BuildInstance inst) (OrphanedFiles inst) s = (s, Fail e)) ∨
     (∃ v, inst_Err inst = None ∧
        unify_orphans (BuildInstance inst) (OrphanedFiles inst) s = (s, Ok v) ∧
        (Err v = Some e ∨ (Err v = None ∧ Validate v = Some e)))).
Proof.
  unfold Build, build_instance. unfold_M.
  destruct (load_Instances _ _) as [|inst ix] eqn:HL; [intros [= _ <-]; by left|].
  intros H. right. exists inst, ix. split; [done|].
  destruct (inst_Err inst) as [e0|] eqn:HI; [injection H as _ <-; left; by exists e0|].
  pose proof (unify_orphans_state (OrphanedFiles inst) (BuildInstance inst) s) as Hs.
  destruct (unify_orphans _ _ s) as [s1 [w|e1]] eqn:HU; simpl in Hs; subst s1.
  - right. right. exists w. split; [done|]. split; [done|].
    destruct (Err w) eqn:HE; [injection H as _ <-; by left|].
    destruct (Validate w) eqn:HV; [injection H as _ <-; by right|done].
  - injection H as _ <-. right. left. done.
Qed.

(** An error of the loop over the data files is the error
    [yaml.Extract] returned for a YAML file, unchanged. *)
Lemma unify_orphans_Fail orphans : ∀ v s s' e,
  unify_orphans v orphans s = (s', Fail e) →
  ∃ f, f ∈ orphans ∧ Encoding f = YAML ∧
       yaml_Extract (Filename f) (Source_ f) (disk s) = Fail e.
Proof.
  induction orphans as [|f rest IH]; intros v s s' e; simpl; [done|].
  destruct (String.eqb _ _) eqn:Hy.
  - unfold_M. destruct (yaml_Extract _ _ _) as [a|e1] eqn:HX.
    + intros (f' & ? & ? & ?)%IH. exists f'. split; [by right|done].
    + intros [= _ <-]. exists f. split; [by left|].
      by apply String.eqb_eq in Hy.
  - intros (f' & ? & ? & ?)%IH. exists f'. split; [by right|done].
Qed.

(** ** GetBundle *)

Lemma collect_snoc name iter : ∀ acc,
  fold_left (λ list entry, (list ++ [instance_of name entry])%list) iter acc
  = (acc ++ (instance_of name <$> iter))%list.
Proof.
  induction iter as [|entry rest IH]; intros acc; simpl.
  - by rewrite app_nil_r.
  - by rewrite IH, <-app_assoc.
Qed.

Lemma collect_fmap name iter : collect name iter = instance_of name <$> iter.
Proof. unfold collect. by rewrite collect_snoc. Qed.

Lemma GetBundle_Ok v b :
  GetBundle v = Ok b ↔
  ∃ iter,
    String_ (LookupPath v (ParsePath BundleName)) = Ok (Name b) ∧
    Err (LookupPath v (ParsePath BundleInstancesSelector)) = None ∧
    Fields (LookupPath v (ParsePath BundleInstancesSelector)) = Ok iter ∧
    Instances b = instance_of (Name b) <$> iter.
Proof.
  unfold GetBundle. split.
  - destruct (String_ _) as [name|e]; [|done].
    destruct (Err _); [done|]. destruct (Fields _) as [iter|e]; [|done].
    intros [= <-]. simpl. exists iter. by rewrite collect_fmap.
  - intros (iter & -> & -> & -> & Hi). destruct b as [n l]. simpl in *.
    by rewrite collect_fmap, Hi.
Qed.

Lemma unify_orphans_skip f : Encoding f ≠ YAML →
  ∀ pre post v s,
    unify_orphans v (pre ++ f :: post) s = unify_orphans v (pre ++ post) s.
Proof.
  intros Hf pre post v s. rewrite !unify_orphans_app.
  destruct (unify_orphans v pre s) as [s1 [w|e]]; [|done]. simpl.
  destruct (String.eqb _ _) eqn:Hy; [|done]. by apply String.eqb_eq in Hy.
Qed.

Lemma unify_orphans_filter orphans : ∀ v s,
  unify_orphans v orphans s
  = unify_orphans v (filter (λ f, Encoding f = YAML) orphans) s.
Proof.
  induction orphans as [|f rest IH]; intros v s; [done|].
  rewrite filter_cons. simpl. destruct (String.eqb _ _) eqn:Hy.
  - apply String.eqb_eq in Hy. rewrite decide_True by done. simpl.
    rewrite Hy. simpl. unfold_M. destruct (yaml_Extract _ _ _); [apply IH|done].
  - apply String.eqb_neq in Hy. rewrite decide_False by done. apply IH.
Qed.

Lemma unify_orphans_Ok orphans : ∀ v s s' w,
  unify_orphans v orphans s = (s', Ok w) →
  ∀ f, f ∈ orphans → Encoding f = YAML →
    ∃ a, yaml_Extract (Filename f) (Source_ f) (disk s) = Ok a.
Proof.
  induction orphans as [|f rest IH]; intros v s s' w; simpl.
  - intros _ f Hf. by apply elem_of_nil in Hf.
  - destruct (String.eqb _ _) eqn:Hy.
    + unfold_M. destruct (yaml_Extract _ _ _) as [a|e1] eqn:HX; [|done].
      intros H f' [->|Hf]%elem_of_cons Hf'; [by exists a|by eapply IH].
    + intros H f' [->|Hf]%elem_of_cons Hf'; [|by eapply IH].
      apply String.eqb_neq in Hy. done.
Qed.

(** ** The claims on the builder *)

(** C1 (as amended): on a tree whose bundle name and instances mapping
    resolve, [GetBundle] returns the bundle without error whatever the
    instance entries hold: each of the module URL, module digest,
    module version and namespace of a record is the string at its path
    when there is one and the empty string when the path is missing or
    not a string. *)
Theorem GetBundle_missing_fields_are_empty v bundleName iter :
  String_ (LookupPath v (ParsePath BundleName)) = Ok bundleName →
  Err (LookupPath v (ParsePath BundleInstancesSelector)) = None →
  Fields (LookupPath v (ParsePath BundleInstancesSelector)) = Ok iter →
  ∃ b, GetBundle v = Ok b ∧
    ∀ i entry, iter !! i = Some entry →
      ∃ bi, Instances b !! i = Some bi ∧
        let at_path sel := String_ (LookupPath entry.2 (ParsePath sel)) in
        Repository (BI_Module bi) = string_or_empty (at_path BundleModuleURLSelector) ∧
        Digest (BI_Module bi) = string_or_empty (at_path BundleModuleDigestSelector) ∧
        Version (BI_Module bi) = string_or_empty (at_path BundleModuleVersionSelector) ∧
        BI_Namespace bi = string_or_empty (at_path BundleNamespaceSelector) ∧
        (∀ sel e, at_path sel = Fail e → string_or_empty (at_path sel) = "").
Proof.
  intros Hn He Hf.
  exists {| Name := bundleName; Instances := instance_of bundleName <$> iter |}.
  split.
  - apply GetBundle_Ok. by exists iter.
  - intros i entry Hi. exists (instance_of bundleName entry). simpl.
    split; [by rewrite list_lookup_fmap, Hi|].
    repeat (split; [done|]). by intros sel e ->.
Qed.

(** C2: on a tree whose bundle name and instances mapping resolve and
    whose instances mapping iterates over the entries [iter],
    [GetBundle] returns a bundle with as many records as [iter] has
    entries, in the order of [iter], and the name of the i-th record is
    the selector of the i-th entry. *)
Theorem GetBundle_one_record_per_entry v bundleName iter :
  String_ (LookupPath v (ParsePath BundleName)) = Ok bundleName →
  Err (LookupPath v (ParsePath BundleInstancesSelector)) = None →
  Fields (LookupPath v (ParsePath BundleInstancesSelector)) = Ok iter →
  ∃ b, GetBundle v = Ok b ∧
    length (Instances b) = length iter ∧
    BI_Name <$> Instances b = (λ entry, Selector_String entry.1) <$> iter ∧
    ∀ i entry, iter !! i = Some entry →
      ∃ bi, Instances b !! i = Some bi ∧ BI_Name bi = Selector_String entry.1.
Proof.
  intros Hn He Hf.
  exists {| Name := bundleName; Instances := instance_of bundleName <$> iter |}.
  split; [apply GetBundle_Ok; by exists iter|]. simpl.
  split; [by rewrite length_fmap|]. split.
  - rewrite <-list_fmap_compose. by apply list_fmap_ext.
  - intros i entry Hi. exists (instance_of bundleName entry).
    by rewrite list_lookup_fmap, Hi.
Qed.

(** C3: once an instance is loaded and its data files are merged into
    [v], [Build] returns a value exactly when [v] has no error and
    passes the concreteness check, and that value is [v] itself; when
    the check reports [e], [Build] fails, with [e] unless [v] already
    carries an evaluation error. *)
Theorem Build_concreteness_gate s inst ix v :
  load_Instances (files (this s)) (disk s) = inst :: ix →
  inst_Err inst = None →
  unify_orphans (BuildInstance inst) (OrphanedFiles inst) s = (s, Ok v) →
  (∀ e, Validate v = Some e →
     ∃ e', Build s = (s, Fail e') ∧ (Err v = None → e' = e)) ∧
  (∀ s' w, Build s = (s', Ok w) → w = v ∧ Validate w = None) ∧
  (Err v = None → Validate v = None → Build s = (s, Ok v)).
Proof.
  intros HL HI HU. split; [|split].
  - intros e HV. unfold Build, build_instance. unfold_M. rewrite HL, HI, HU.
    destruct (Err v) as [e1|]; [by exists e1|]. rewrite HV. by exists e.
  - intros s' w (-> & inst' & ix' & HL' & _ & HU' & _ & HV)%Build_Ok.
    rewrite HL in HL'. injection HL' as <- <-. rewrite HU in HU'.
    by injection HU' as <-.
  - intros HE HV. apply Build_Ok. split; [done|]. by exists inst, ix.
Qed.


(** C9: in a bundle [GetBundle] returns, the bundle field of every
    record is the name of the bundle, which is the string at the
    bundle-name path. *)
Theorem GetBundle_records_carry_bundle_name v b :
  GetBundle v = Ok b →
  String_ (LookupPath v (ParsePath BundleName)) = Ok (Name b) ∧
  ∀ bi, bi ∈ Instances b → BI_Bundle bi = Name b.
Proof.
  intros (iter & Hn & _ & _ & Hi)%GetBundle_Ok. split; [done|].
  intros bi. rewrite Hi. by intros (entry & -> & _)%list_elem_of_fmap.
Qed.

(** C10: [InitWorkspace] assigns [b.files] on success only.  When it
    returns an error the builder is as it was; when it returns nil the
    list is the staged files followed by the schema file, and this is
    the list [Build] then hands to the loader. *)
Theorem InitWorkspace_assigns_on_success ws s s' r :
  InitWorkspace ws s = (s', r) →
  let src := files (this s) in
  match r with
  | Fail _ => this s' = this s
  | Ok _ =>
      files (this s')
      = (staged_files ws src ++ [schemaFile_of ws src])%list ∧
      Build s' =
        match load_Instances (staged_files ws src ++ [schemaFile_of ws src])
                             (disk s') with
        | [] => (s', Fail (New "no instances found"))
        | inst :: _ => build_instance inst s'
        end
  end.
Proof.
  destruct r as [u|e].
  - intros (Hfiles & _)%InitWorkspace_Ok src. subst src. split; [done|].
    unfold Build. unfold_M. rewrite Hfiles. by destruct (load_Instances _ _).
  - by intros (Hthis & _)%InitWorkspace_Fail.
Qed.

End BuilderFacts.

(** ** The reference engine *)
Section Reference.
Import Ref.













Lemma well_formed_value_err v : well_formed v = true → value_err v = None.
Proof. by destruct v. Qed.









End Reference.

(** ** Runs on the reference engine *)
Section Runs.
Import Ref Examples.

Lemma Join_inj ws a b : Join ws a = Join ws b → a = b.
Proof.
  simpl. induction ws as [|c ws IH]; simpl; intros H; [by injection H|].
  injection H as H. by apply IH.
Qed.

(** C1, counterexample: a concrete tree passes the concreteness check,
    has no module URL for its instance, and [GetBundle] returns the
    bundle, with an empty repository, instead of an error. *)
Lemma GetBundle_missing_url_is_no_error :
  Validate tree_without_url = None ∧
  get ["bundle"; "instances"; "redis"; "module"; "url"] tree_without_url = None ∧
  GetBundle tree_without_url
  = Ok {| Name := "demo";
          Instances := [
            {| BI_Bundle := "demo";
               BI_Name := "redis";
               BI_Namespace := "";
               BI_Module := {| Repository := ""; Version := "7.2.1"; Digest := "" |};
               BI_Values := Bottom (New "field not found: values") |}] |}.
Proof. by vm_compute. Qed.

Lemma GetBundle_missing_fields_are_empty_witness :
  ∃ b, GetBundle tree_without_url = Ok b ∧
    ∃ bi, Instances b !! 0 = Some bi ∧
      Repository (BI_Module bi) = "" ∧ Version (BI_Module bi) = "7.2.1".
Proof.
  destruct (GetBundle_missing_fields_are_empty (E:=engine) (A:=api) tree_without_url "demo"
              [("redis", Struct [("module", Struct [("version", Str "7.2.1")])])]
              eq_refl eq_refl eq_refl) as (b & Hb & Hi).
  exists b. split; [exact Hb|].
  destruct (Hi 0 _ eq_refl) as (bi & Hbi & Hurl & _ & Hver & _).
  exists bi. split; [exact Hbi|]. split; [exact Hurl|exact Hver].
Defined.

Lemma GetBundle_one_record_per_entry_witness :
  ∃ b, GetBundle tree_two = Ok b ∧ length (Instances b) = 2 ∧
       BI_Name <$> Instances b = ["redis"; "podinfo"].
Proof.
  destruct (GetBundle_one_record_per_entry (E:=engine) (A:=api) tree_two "demo" _
              eq_refl eq_refl eq_refl) as (b & Hb & Hlen & Hnames & _).
  exists b. split; [exact Hb|]. split; [exact Hlen|exact Hnames].
Defined.

Lemma Build_concreteness_gate_witness :
  ∃ e', Build staged_open = (staged_open, Fail e') ∧
        e' = New "bundle.instances.redis.namespace: incomplete value".
Proof.
  destruct (Build_concreteness_gate (E:=engine) staged_open _ _ _ eq_refl eq_refl eq_refl)
    as (H & _).
  destruct (H (New "bundle.instances.redis.namespace: incomplete value") eq_refl)
    as (e' & He & Hv).
  exists e'. split; [exact He|]. apply Hv. reflexivity.
Defined.



Lemma GetBundle_records_carry_bundle_name_witness :
  GetBundle tree_two = Ok bundle_two ∧
  ∀ bi, bi ∈ Instances bundle_two → BI_Bundle bi = "demo".
Proof.
  split; [reflexivity|].
  exact (proj2 (GetBundle_records_carry_bundle_name (E:=engine) (A:=api)
                  tree_two bundle_two eq_refl)).
Defined.

Lemma InitWorkspace_assigns_on_success_witness :
  InitWorkspace "/ws" sources_missing
  = ((InitWorkspace "/ws" sources_missing).1,
     Fail (New "open /src/over.yaml: no such file or directory")) ∧
  this (InitWorkspace "/ws" sources_missing).1 = this sources_missing.
Proof.
  split; [reflexivity|].
  exact (InitWorkspace_assigns_on_success (E:=engine) (A:=api) "/ws" sources_missing _ _ eq_refl).
Defined.

End Runs.

(** ** More on the builder *)
Section More.
Context {W : World} {E : Engine} {A : ApiV1}.

Lemma St_eta (s : St) : {| this := this s; disk := disk s |} = s.
Proof. by destruct s. Qed.

Lemma copy_loop_app ws pre post : ∀ i fl s,
  copy_loop ws i (pre ++ post) fl s
  = match copy_loop ws i pre fl s with
    | (s1, Ok fl1) => copy_loop ws (i + length pre) post fl1 s1
    | (s1, Fail e) => (s1, Fail e)
    end.
Proof.
  induction pre as [|file rest IH]; intros i fl s; simpl.
  - unfold_M. by rewrite Nat.add_0_r.
  - unfold_M. destruct (Copy _ _ _) as [d [e|]]; simpl; [done|].
    rewrite IH. by replace (S i + length rest) with (i + S (length rest)) by lia.
Qed.

Lemma copy_loop_all ws src : ∀ i fl s d1,
  copy_all ws i src (disk s) = Some d1 →
  copy_loop ws i src fl s
  = ({| this := this s; disk := d1 |},
     Ok (fl ++ imap (λ j, dstFile_of ws (i + j)) src)%list).
Proof.
  induction src as [|file rest IH]; intros i fl s d1; simpl.
  - intros [= <-]. unfold_M. by rewrite St_eta, app_nil_r.
  - unfold_M. destruct (Copy _ _ _) as [d [e|]]; simpl; [done|].
    intros H. rewrite (IH _ _ {| this := this s; disk := d |} d1 H). simpl.
    rewrite <-app_assoc. simpl. do 3 f_equal. rewrite Nat.add_0_r. f_equal.
    apply imap_ext. intros j x _. simpl. f_equal. lia.
Qed.

Lemma copy_loop_all_inv ws src : ∀ i fl s s' fl',
  copy_loop ws i src fl s = (s', Ok fl') →
  copy_all ws i src (disk s) = Some (disk s').
Proof.
  induction src as [|file rest IH]; intros i fl s s' fl'; simpl.
  - unfold_M. by intros [= <- _].
  - unfold_M. destruct (Copy _ _ _) as [d [e|]]; simpl; [done|].
    intros H. by apply IH in H.
Qed.

Lemma inject_loop_app pre post : ∀ s,
  inject_loop (pre ++ post) s
  = match inject_loop pre s with
    | (s1, Ok _) => inject_loop post s1
    | (s1, Fail e) => (s1, Fail e)
    end.
Proof.
  induction pre as [|f rest IH]; intros s; simpl; [done|]. unfold_M.
  destruct (Inject _ _) as [d [data|e]]; simpl; [|done].
  destruct (WriteFile _ _ _) as [d' [e|]]; simpl; [done|]. apply IH.
Qed.

Lemma inject_loop_all fl : ∀ s d2,
  inject_all fl (disk s) = Some d2 →
  inject_loop fl s = ({| this := this s; disk := d2 |}, Ok tt).
Proof.
  induction fl as [|f rest IH]; intros s d2; simpl.
  - intros [= <-]. unfold_M. by rewrite St_eta.
  - unfold_M. destruct (Inject _ _) as [d [data|e]]; simpl; [|done].
    destruct (WriteFile _ _ _) as [d' [e|]]; simpl; [done|].
    intros H. by rewrite (IH {| this := this s; disk := d' |} d2 H).
Qed.

Lemma inject_loop_all_inv fl : ∀ s s' u,
  inject_loop fl s = (s', Ok u) → inject_all fl (disk s) = Some (disk s').
Proof.
  induction fl as [|f rest IH]; intros s s' u; simpl; unfold_M.
  - by intros [= <- _].
  - destruct (Inject _ _) as [d [data|e]]; simpl; [|done].
    destruct (WriteFile _ _ _) as [d' [e|]]; simpl; [done|].
    intros H. by apply IH in H.
Qed.

(** X1: [InitWorkspace] returns nil exactly when every copy returns
    nil on the file system the copy before it left, then every staged
    file, in order, is injected and written back with the data the
    injector returned for it, and then the schema write returns nil;
    the builder then lists the staged files followed by the schema
    file, and the file system is the one the schema write left. *)
Theorem InitWorkspace_succeeds_iff ws s s' :
  let src := files (this s) in
  InitWorkspace ws s = (s', Ok tt) ↔
  ∃ d1 d2,
    copy_all ws 0 src (disk s) = Some d1 ∧
    inject_all (staged_files ws src) d1 = Some d2 ∧
    WriteFile (schemaFile_of ws src) BundleSchema d2 = (disk s', None) ∧
    files (this s') = (staged_files ws src ++ [schemaFile_of ws src])%list.
Proof.
  intros src. subst src. unfold InitWorkspace. unfold_M. split.
  - destruct (copy_loop ws 0 (files (this s)) [] s) as [s1 [fl|e]] eqn:HC; [|done].
    pose proof (copy_loop_this _ _ _ _ _ _ _ HC) as Ht1.
    pose proof (copy_loop_all_inv _ _ _ _ _ _ _ HC) as Hc.
    apply copy_loop_Ok in HC as (-> & _). simpl in *.
    destruct (inject_loop _ s1) as [s2 [[]|e]] eqn:HI; [|done].
    pose proof (inject_loop_this _ _ _ _ HI) as Ht2.
    pose proof (inject_loop_all_inv _ _ _ _ HI) as Hi.
    destruct (WriteFile _ _ (disk s2)) as [d [e|]] eqn:HW; simpl; [done|].
    intros [= <-]. simpl. rewrite Ht2, Ht1 in *.
    exists (disk s1), (disk s2). done.
  - intros (d1 & d2 & Hc & Hi & Hw & Hf).
    rewrite (copy_loop_all _ _ _ _ _ _ Hc). simpl.
    change (imap _ (files (this s))) with (staged_files ws (files (this s))).
    rewrite (inject_loop_all _ {| this := this s; disk := d1 |} d2 Hi). simpl.
    rewrite Hw. simpl. destruct s' as [[fl'] d']. simpl in *. by subst.
Qed.

(** X2: when the copies of the sources before [file] return nil and
    the copy of [file] fails, [InitWorkspace] returns that error
    unwrapped and stops: the file system is the one the failed copy
    left, with the earlier copies still in it, no later source is
    copied, nothing is injected and the builder is unchanged. *)
Theorem InitWorkspace_copy_failure ws s pre file post d1 d' e :
  files (this s) = (pre ++ file :: post)%list →
  copy_all ws 0 pre (disk s) = Some d1 →
  Copy file (dstFile_of ws (length pre) file) d1 = (d', Some e) →
  InitWorkspace ws s = ({| this := this s; disk := d' |}, Fail e).
Proof.
  intros Hsrc Hc HC. unfold InitWorkspace. unfold_M. rewrite Hsrc.
  rewrite copy_loop_app, (copy_loop_all _ _ _ _ _ _ Hc). simpl.
  unfold_M. simpl. by rewrite HC.
Qed.

Lemma inject_loop_Inject_fails pre f post s d2 d' e0 :
  inject_all pre (disk s) = Some d2 →
  Inject f d2 = (d', Fail e0) →
  inject_loop (pre ++ f :: post) s
  = ({| this := this s; disk := d' |},
     Fail (Wrapf ("failed to inject " +:+ (Split f).2 +:+ ": ") e0)).
Proof.
  intros Hi HI. rewrite inject_loop_app, (inject_loop_all _ _ _ Hi). simpl.
  unfold_M. simpl. by rewrite HI.
Qed.

Lemma inject_loop_WriteFile_fails pre f post s d2 d3 data d' e0 :
  inject_all pre (disk s) = Some d2 →
  Inject f d2 = (d3, Ok data) → WriteFile f data d3 = (d', Some e0) →
  inject_loop (pre ++ f :: post) s
  = ({| this := this s; disk := d' |},
     Fail (Wrapf ("failed to inject " +:+ (Split f).2 +:+ ": ") e0)).
Proof.
  intros Hi HI HW. rewrite inject_loop_app, (inject_loop_all _ _ _ Hi). simpl.
  unfold_M. simpl. rewrite HI. simpl. by rewrite HW.
Qed.

(** X3: when all copies return nil and the staged files before [f]
    are injected, a failure of the injector on [f], or of writing its
    data back, makes [InitWorkspace] return that error wrapped as
    [failed to inject <file name of f>: ]; the file system is the one
    the failing call left, later staged files are not injected, the
    schema is not written and the builder is unchanged. *)
Theorem InitWorkspace_injection_failure ws s d1 pre f post d2 :
  copy_all ws 0 (files (this s)) (disk s) = Some d1 →
  staged_files ws (files (this s)) = (pre ++ f :: post)%list →
  inject_all pre d1 = Some d2 →
  (∀ d' e0, Inject f d2 = (d', Fail e0) →
     InitWorkspace ws s
     = ({| this := this s; disk := d' |},
        Fail (Wrapf ("failed to inject " +:+ (Split f).2 +:+ ": ") e0))) ∧
  (∀ d3 data d' e0,
     Inject f d2 = (d3, Ok data) → WriteFile f data d3 = (d', Some e0) →
     InitWorkspace ws s
     = ({| this := this s; disk := d' |},
        Fail (Wrapf ("failed to inject " +:+ (Split f).2 +:+ ": ") e0))).
Proof.
  intros Hc Hst Hi. split.
  - intros d' e0 HI. unfold InitWorkspace. unfold_M.
    rewrite (copy_loop_all _ _ _ _ _ _ Hc). simpl.
    change (imap _ (files (this s))) with (staged_files ws (files (this s))).
    rewrite Hst.
    by rewrite (inject_loop_Inject_fails pre f post
                  {| this := this s; disk := d1 |} d2 d' e0 Hi HI).
  - intros d3 data d' e0 HI HW. unfold InitWorkspace. unfold_M.
    rewrite (copy_loop_all _ _ _ _ _ _ Hc). simpl.
    change (imap _ (files (this s))) with (staged_files ws (files (this s))).
    rewrite Hst.
    by rewrite (inject_loop_WriteFile_fails pre f post
                  {| this := this s; disk := d1 |} d2 d3 data d' e0 Hi HI HW).
Qed.

(** X4: when every copy and every injection returns nil and only the
    schema write fails, [InitWorkspace] returns that error unwrapped
    and leaves the builder with its source list, although the
    workspace holds every staged and injected file. *)
Theorem InitWorkspace_schema_write_failure ws s d1 d2 d' e :
  copy_all ws 0 (files (this s)) (disk s) = Some d1 →
  inject_all (staged_files ws (files (this s))) d1 = Some d2 →
  WriteFile (schemaFile_of ws (files (this s))) BundleSchema d2 = (d', Some e) →
  InitWorkspace ws s = ({| this := this s; disk := d' |}, Fail e).
Proof.
  intros Hc Hi HW. unfold InitWorkspace. unfold_M.
  rewrite (copy_loop_all _ _ _ _ _ _ Hc). simpl.
  change (imap _ (files (this s))) with (staged_files ws (files (this s))).
  rewrite (inject_loop_all _ {| this := this s; disk := d1 |} d2 Hi). simpl.
  by rewrite HW.
Qed.

Lemma staged_name_inj i j fn fn' :
  staged_name i fn = staged_name j fn' → i = j.
Proof. apply itoa_dot. Qed.

(** X5: after a successful [InitWorkspace] the paths of the builder's
    list are pairwise distinct, also when two sources have the same
    file name, provided [Join workspace] maps different names of the
    form [<index>.<name>] to different paths. *)
Theorem InitWorkspace_files_distinct ws s s' u :
  (∀ i j fn fn',
     "/"%char ∉ String.list_ascii_of_string fn →
     "/"%char ∉ String.list_ascii_of_string fn' →
     Join ws (staged_name i fn) = Join ws (staged_name j fn') →
     staged_name i fn = staged_name j fn') →
  InitWorkspace ws s = (s', Ok u) →
  NoDup (files (this s')).
Proof.
  intros Hinj (Hfiles & _)%InitWorkspace_Ok. simpl in Hfiles. rewrite Hfiles.
  assert ("/"%char ∉ String.list_ascii_of_string "schema.cue") as Hschema.
  { intros H. repeat (apply elem_of_cons in H as [H|H]; [done|]).
    by apply elem_of_nil in H. }
  apply NoDup_app. split; [|split].
  - apply NoDup_alt. intros i j x. unfold staged_files.
    rewrite !list_lookup_imap.
    destruct (files (this s) !! i) as [fi|]; [|done].
    destruct (files (this s) !! j) as [fj|]; [|done]. simpl.
    intros [= <-] [= H]. apply Hinj in H; [|apply Split_file..].
    symmetry. by eapply staged_name_inj.
  - intros x (i & Hi)%list_elem_of_lookup_1 ->%list_elem_of_singleton.
    unfold staged_files in Hi. rewrite list_lookup_imap in Hi.
    destruct (files (this s) !! i) as [fi|] eqn:Hfi; [|done].
    injection Hi as Hi.
    apply (Hinj i (length (files (this s)) + 1) _ "schema.cue") in Hi;
      [|apply Split_file|done].
    apply staged_name_inj in Hi. apply lookup_lt_Some in Hfi. lia.
  - apply NoDup_singleton.
Qed.

Lemma unify_orphans_Forall2 orphans : ∀ asts v s,
  Forall2 (λ f a, yaml_Extract (Filename f) (Source_ f) (disk s) = Ok a)
          (filter (λ f, Encoding f = YAML) orphans) asts →
  unify_orphans v orphans s
  = (s, Ok (fold_left (λ acc a, Unify acc (BuildFile a)) asts v)).
Proof.
  induction orphans as [|f rest IH]; intros asts v s.
  - intros ->%Forall2_nil_inv_l. done.
  - rewrite filter_cons. simpl. destruct (String.eqb _ _) eqn:Hy.
    + apply String.eqb_eq in Hy. rewrite decide_True by done.
      intros (a & asts' & HX & Hrest & ->)%Forall2_cons_inv_l.
      unfold_M. rewrite HX. simpl. by apply IH.
    + apply String.eqb_neq in Hy. rewrite decide_False by done. apply IH.
Qed.

(** X8: when the first loaded instance has no error and every YAML
    data file is extracted, [Build] unifies the extracted documents
    onto the instance value from left to right in the order of
    [OrphanedFiles], whatever the intermediate values are, and only
    then checks the result: its evaluation error first, the
    concreteness check second.  The other loaded instances are not
    looked at. *)
Theorem Build_merges_in_order s inst ix asts :
  load_Instances (files (this s)) (disk s) = inst :: ix →
  inst_Err inst = None →
  Forall2 (λ f a, yaml_Extract (Filename f) (Source_ f) (disk s) = Ok a)
          (filter (λ f, Encoding f = YAML) (OrphanedFiles inst)) asts →
  let v := fold_left (λ acc a, Unify acc (BuildFile a)) asts (BuildInstance inst) in
  Build s
  = (s, match Err v with
        | Some e => Fail e
        | None => match Validate v with Some e => Fail e | None => Ok v end
        end).
Proof.
  intros HL HI HX v. unfold Build, build_instance. unfold_M.
  rewrite HL, HI, (unify_orphans_Forall2 _ _ _ _ HX). fold v.
  destruct (Err v); [done|]. by destruct (Validate v).
Qed.

Lemma unify_orphans_extracts pre : ∀ v s,
  (∀ f, f ∈ pre → Encoding f = YAML →
        ∃ a, yaml_Extract (Filename f) (Source_ f) (disk s) = Ok a) →
  ∃ w, unify_orphans v pre s = (s, Ok w).
Proof.
  induction pre as [|f rest IH]; intros v s Hall; simpl; [by exists v|].
  destruct (String.eqb _ _) eqn:Hy.
  - apply String.eqb_eq in Hy.
    destruct (Hall f) as [a Ha]; [by left|done|]. unfold_M. rewrite Ha.
    apply IH. intros f' Hf'. apply Hall. by right.
  - apply IH. intros f' Hf'. apply Hall. by right.
Qed.

(** X9: when a YAML data file cannot be extracted and the YAML files
    before it can, [Build] returns the extraction error unchanged,
    whatever the earlier merges produced (a conflict among them is
    not reported) and whatever follows in the list. *)
Theorem Build_extract_failure s inst ix pre f post e :
  load_Instances (files (this s)) (disk s) = inst :: ix →
  inst_Err inst = None →
  OrphanedFiles inst = (pre ++ f :: post)%list →
  (∀ f', f' ∈ pre → Encoding f' = YAML →
         ∃ a, yaml_Extract (Filename f') (Source_ f') (disk s) = Ok a) →
  Encoding f = YAML →
  yaml_Extract (Filename f) (Source_ f) (disk s) = Fail e →
  Build s = (s, Fail e).
Proof.
  intros HL HI HO Hpre Hy HX. unfold Build, build_instance. unfold_M.
  rewrite HL, HI, HO, unify_orphans_app.
  destruct (unify_orphans_extracts pre (BuildInstance inst) s Hpre) as [w ->].
  simpl. rewrite Hy. simpl. unfold_M. by rewrite HX.
Qed.

(** X10: [GetBundle] fails in exactly three ways, tried in this
    order: the bundle name is no string, the instances lookup is an
    error value, the field iteration fails.  The first error wraps
    the error of the looked-up name value, not the error of
    [String()]: for a name that exists and is not a string there is
    none, and the message ends in the formatting placeholder for a
    nil error. *)
Theorem GetBundle_fails_iff v e :
  let nameV := LookupPath v (ParsePath BundleName) in
  let instV := LookupPath v (ParsePath BundleInstancesSelector) in
  (GetBundle v = Fail e ↔
     (∃ e0, String_ nameV = Fail e0 ∧
        e = Errorf_w ("lookup " +:+ BundleName +:+ " failed: ") (Err nameV)) ∨
     (∃ n e0, String_ nameV = Ok n ∧ Err instV = Some e0 ∧
        e = Wrapf ("lookup " +:+ BundleInstancesSelector +:+ " failed: ") e0) ∨
     (∃ n, String_ nameV = Ok n ∧ Err instV = None ∧ Fields instV = Fail e)) ∧
  (∀ e0, String_ nameV = Fail e0 → Err nameV = None →
     GetBundle v
     = Fail (New (("lookup " +:+ BundleName +:+ " failed: ") +:+ "%!w(<nil>)"))).
Proof.
  intros nameV instV. subst nameV instV. unfold GetBundle. split; [split|].
  - destruct (String_ _) as [n|e0] eqn:Hn.
    + destruct (Err (LookupPath v (ParsePath BundleInstancesSelector)))
        as [e1|] eqn:He.
      * intros [= <-]. right. left. by exists n, e1.
      * destruct (Fields _) as [iter|e1] eqn:Hf; [done|].
        intros [= <-]. right. right. by exists n.
    + intros [= <-]. left. by exists e0.
  - intros [(e0 & -> & ->)|[(n & e0 & -> & -> & ->)|(n & -> & -> & ->)]]; done.
  - intros e0 -> ->. done.
Qed.

(** X11: the values of a record are the result of the values lookup
    on its entry, passed on as it is; [GetBundle] neither checks it
    for an error nor requires it to be concrete. *)
Theorem GetBundle_values_unchecked v bundleName iter :
  String_ (LookupPath v (ParsePath BundleName)) = Ok bundleName →
  Err (LookupPath v (ParsePath BundleInstancesSelector)) = None →
  Fields (LookupPath v (ParsePath BundleInstancesSelector)) = Ok iter →
  ∃ b, GetBundle v = Ok b ∧
    BI_Values <$> Instances b
    = (λ entry, LookupPath entry.2 (ParsePath BundleValuesSelector)) <$> iter.
Proof.
  intros Hn He Hf.
  exists {| Name := bundleName; Instances := instance_of bundleName <$> iter |}.
  split; [apply GetBundle_Ok; by exists iter|]. simpl.
  rewrite <-list_fmap_compose. by apply list_fmap_ext.
Qed.

(** X7: [InitWorkspace] is not idempotent.  A second successful call
    stages the files of the first again, the schema file of the first
    among them as an ordinary source at index [n], and appends a new
    schema file numbered [n + 2]; the list grows from [n + 1] to
    [n + 2] entries. *)
Theorem InitWorkspace_twice ws ws' s s1 s2 u u' :
  InitWorkspace ws s = (s1, Ok u) →
  InitWorkspace ws' s1 = (s2, Ok u') →
  let src := files (this s) in
  let n := length src in
  length (files (this s2)) = n + 2 ∧
  (∀ i file, src !! i = Some file →
     files (this s2) !! i = Some (dstFile_of ws' i (dstFile_of ws i file))) ∧
  files (this s2) !! n = Some (dstFile_of ws' n (schemaFile_of ws src)) ∧
  files (this s2) !! (n + 1) = Some (Join ws' (schema_name (n + 1))).
Proof.
  intros (H1 & _)%InitWorkspace_Ok (H2 & _)%InitWorkspace_Ok src n.
  simpl in H1, H2. subst src n. rewrite H2, H1.
  assert (length (staged_files ws (files (this s))) = length (files (this s)))
    as Hlen by (unfold staged_files; by rewrite length_imap).
  split; [|split; [|split]].
  - rewrite length_app. unfold staged_files at 1. rewrite length_imap, length_app.
    rewrite Hlen. simpl. lia.
  - intros i file Hi. pose proof (lookup_lt_Some _ _ _ Hi) as Hlt.
    rewrite lookup_app_l
      by (unfold staged_files at 1; rewrite length_imap, length_app; lia).
    unfold staged_files at 1. rewrite list_lookup_imap, lookup_app_l by lia.
    unfold staged_files. by rewrite list_lookup_imap, Hi.
  - rewrite lookup_app_l
      by (unfold staged_files at 1; rewrite length_imap, length_app; simpl; lia).
    unfold staged_files at 1. rewrite list_lookup_imap.
    rewrite lookup_app_r by lia. by rewrite Hlen, Nat.sub_diag.
  - rewrite lookup_app_r
      by (unfold staged_files at 1; rewrite length_imap, length_app; simpl; lia).
    unfold staged_files at 1. rewrite length_imap, length_app, Hlen. simpl.
    replace (length (files (this s)) + 1 - (length (files (this s)) + 1)) with 0
      by lia.
    simpl. unfold schemaFile_of. by rewrite length_app, Hlen.
Qed.

(** X12: for a builder made by [NewBundleBuilder] from [fl], when
    [InitWorkspace] and then [Build] succeed, [Build] has left builder
    and file system as [InitWorkspace] left them, the list is the
    staged files of [fl] followed by the schema file, and the value
    returned comes from the first instance the loader returns for
    exactly that list, merged with its data files, without error and
    concrete. *)
Theorem fresh_builder_pipeline fl d ws s1 u s2 v :
  InitWorkspace ws {| this := NewBundleBuilder fl; disk := d |} = (s1, Ok u) →
  Build s1 = (s2, Ok v) →
  s2 = s1 ∧
  files (this s2) = (staged_files ws fl ++ [schemaFile_of ws fl])%list ∧
  (∃ inst ix,
     load_Instances (staged_files ws fl ++ [schemaFile_of ws fl]) (disk s1)
     = inst :: ix ∧
     inst_Err inst = None ∧
     unify_orphans (BuildInstance inst) (OrphanedFiles inst) s1 = (s1, Ok v)) ∧
  Err v = None ∧ Validate v = None.
Proof.
  intros (H1 & _)%InitWorkspace_Ok
         (-> & inst & ix & HL & HI & HU & HE & HV)%Build_Ok.
  simpl in H1. split; [done|]. split; [done|]. rewrite H1 in HL.
  split; [by exists inst, ix|done].
Qed.

(** X6: with no sources [InitWorkspace] makes one call, the write of
    the schema to [1.schema.cue] in the workspace; when it returns nil
    the builder lists that file alone, and an empty list is no
    error. *)
Theorem InitWorkspace_no_sources ws s :
  files (this s) = [] →
  InitWorkspace ws s
  = match WriteFile (Join ws "1.schema.cue") BundleSchema (disk s) with
    | (d, None) =>
        ({| this := {| files := [Join ws "1.schema.cue"] |}; disk := d |}, Ok tt)
    | (d, Some e) => ({| this := this s; disk := d |}, Fail e)
    end.
Proof.
  intros Hsrc. unfold InitWorkspace. unfold_M. rewrite Hsrc. simpl.
  unfold_M. simpl. rewrite Hsrc. unfold schemaFile_of. simpl.
  change (schema_name 0) with "1.schema.cue".
  by destruct (WriteFile _ _ _) as [d [e|]].
Qed.

(** ** Errors of the pipeline and the merge of data files *)

Lemma copy_loop_Fail_at ws src : ∀ i fl s s' e,
  copy_loop ws i src fl s = (s', Fail e) →
  ∃ pre file post d1,
    src = (pre ++ file :: post)%list ∧
    copy_all ws i pre (disk s) = Some d1 ∧
    Copy file (dstFile_of ws (i + length pre) file) d1 = (disk s', Some e).
Proof.
  induction src as [|file rest IH]; intros i fl s s' e; simpl.
  - unfold_M. done.
  - unfold_M. destruct (Copy _ _ _) as [d [e'|]] eqn:HC; simpl.
    + intros [= <- <-]. exists [], file, rest, (disk s). simpl.
      by rewrite Nat.add_0_r, HC.
    + intros (pre & file' & post & d1 & -> & Hc & HC')%IH. simpl in Hc.
      exists (file :: pre), file', post, d1. simpl. rewrite HC.
      split; [done|]. split; [done|].
      by replace (i + S (length pre)) with (S i + length pre) by lia.
Qed.

Lemma inject_loop_Fail_at fl : ∀ s s' e,
  inject_loop fl s = (s', Fail e) →
  ∃ pre f post d2 e0,
    fl = (pre ++ f :: post)%list ∧
    inject_all pre (disk s) = Some d2 ∧
    e = Wrapf ("failed to inject " +:+ (Split f).2 +:+ ": ") e0 ∧
    (Inject f d2 = (disk s', Fail e0) ∨
     ∃ d3 data, Inject f d2 = (d3, Ok data) ∧
                WriteFile f data d3 = (disk s', Some e0)).
Proof.
  induction fl as [|f rest IH]; intros s s' e; simpl; unfold_M; [done|].
  destruct (Inject _ _) as [d [data|e1]] eqn:HI; simpl.
  - destruct (WriteFile _ _ _) as [d' [e1|]] eqn:HW; simpl.
    + intros [= <- <-]. exists [], f, rest, (disk s), e1. simpl.
      split; [done|]. split; [done|]. split; [done|].
      right. exists d, data. by rewrite HI, HW.
    + intros (pre & f' & post & d2 & e0 & -> & Hi & -> & Horigin)%IH.
      simpl in Hi. exists (f :: pre), f', post, d2, e0. simpl.
      rewrite HI, HW. done.
  - intros [= <- <-]. exists [], f, rest, (disk s), e1. simpl.
    split; [done|]. split; [done|]. split; [done|]. left. by rewrite HI.
Qed.

Lemma unify_orphans_Fail_at orphans : ∀ v s s' e,
  unify_orphans v orphans s = (s', Fail e) →
  ∃ pre f post,
    orphans = (pre ++ f :: post)%list ∧
    (∀ f', f' ∈ pre → Encoding f' = YAML →
           ∃ a, yaml_Extract (Filename f') (Source_ f') (disk s) = Ok a) ∧
    Encoding f = YAML ∧
    yaml_Extract (Filename f) (Source_ f) (disk s) = Fail e.
Proof.
  induction orphans as [|f rest IH]; intros v s s' e; simpl; [done|].
  destruct (String.eqb _ _) eqn:Hy.
  - unfold_M. destruct (yaml_Extract _ _ _) as [a|e1] eqn:HX.
    + intros (pre & f' & post & -> & Hpre & Hf' & HX')%IH.
      exists (f :: pre), f', post. split; [done|]. split; [|done].
      intros g [->|Hg]%elem_of_cons Hgy; [by exists a|by apply Hpre].
    + intros [= _ <-]. apply String.eqb_eq in Hy.
      exists [], f, rest. split; [done|]. split; [|done].
      intros g Hg. by apply elem_of_nil in Hg.
  - intros (pre & f' & post & -> & Hpre & Hf' & HX')%IH.
    exists (f :: pre), f', post. split; [done|]. split; [|done].
    intros g [->|Hg]%elem_of_cons Hgy; [|by apply Hpre].
    apply String.eqb_neq in Hy. done.
Qed.

(** C5 (as amended): every failing call ends the run with its error.
    In [InitWorkspace], on the file system actually reached, a failing
    copy or schema write is returned unchanged, and a failing
    injection or write-back is returned wrapped as [failed to inject
    <name>: ] with the file name of the staged file; these are all its
    errors.  In [Build], no instance gives [no instances found], a
    load error is returned wrapped as [instance error: ], and the
    error of [yaml.Extract], of the merged value and of the
    concreteness check is returned unchanged, with neither a file name
    nor a field path put in front; these are all its errors, and
    [Build] returns a value only when no step reported one.  A wrapped
    error keeps the message of the error inside it. *)
Theorem pipeline_errors ws s :
  let src := files (this s) in
  let stays d := {| this := this s; disk := d |} in
  let inject_prefix f := "failed to inject " +:+ (Split f).2 +:+ ": " in
  (∀ pre file post d1 d' e,
     src = (pre ++ file :: post)%list →
     copy_all ws 0 pre (disk s) = Some d1 →
     Copy file (dstFile_of ws (length pre) file) d1 = (d', Some e) →
     InitWorkspace ws s = (stays d', Fail e)) ∧
  (∀ d1 pre f post d2 d' e0,
     copy_all ws 0 src (disk s) = Some d1 →
     staged_files ws src = (pre ++ f :: post)%list →
     inject_all pre d1 = Some d2 →
     Inject f d2 = (d', Fail e0) →
     InitWorkspace ws s = (stays d', Fail (Wrapf (inject_prefix f) e0))) ∧
  (∀ d1 pre f post d2 d3 data d' e0,
     copy_all ws 0 src (disk s) = Some d1 →
     staged_files ws src = (pre ++ f :: post)%list →
     inject_all pre d1 = Some d2 →
     Inject f d2 = (d3, Ok data) → WriteFile f data d3 = (d', Some e0) →
     InitWorkspace ws s = (stays d', Fail (Wrapf (inject_prefix f) e0))) ∧
  (∀ d1 d2 d' e,
     copy_all ws 0 src (disk s) = Some d1 →
     inject_all (staged_files ws src) d1 = Some d2 →
     WriteFile (schemaFile_of ws src) BundleSchema d2 = (d', Some e) →
     InitWorkspace ws s = (stays d', Fail e)) ∧
  (∀ s' e, InitWorkspace ws s = (s', Fail e) →
     (∃ pre file post d1,
        src = (pre ++ file :: post)%list ∧
        copy_all ws 0 pre (disk s) = Some d1 ∧
        Copy file (dstFile_of ws (length pre) file) d1 = (disk s', Some e)) ∨
     (∃ d1 pre f post d2 e0,
        copy_all ws 0 src (disk s) = Some d1 ∧
        staged_files ws src = (pre ++ f :: post)%list ∧
        inject_all pre d1 = Some d2 ∧
        e = Wrapf (inject_prefix f) e0 ∧
        Error e = inject_prefix f +:+ Error e0 ∧
        (Inject f d2 = (disk s', Fail e0) ∨
         ∃ d3 data, Inject f d2 = (d3, Ok data) ∧
                    WriteFile f data d3 = (disk s', Some e0))) ∨
     (∃ d1 d2,
        copy_all ws 0 src (disk s) = Some d1 ∧
        inject_all (staged_files ws src) d1 = Some d2 ∧
        WriteFile (schemaFile_of ws src) BundleSchema d2 = (disk s', Some e))) ∧
  (load_Instances src (disk s) = [] →
     Build s = (s, Fail (New "no instances found"))) ∧
  (∀ inst ix e0,
     load_Instances src (disk s) = inst :: ix → inst_Err inst = Some e0 →
     Build s = (s, Fail (Wrapf "instance error: " e0))) ∧
  (∀ inst ix pre f post e,
     load_Instances src (disk s) = inst :: ix → inst_Err inst = None →
     OrphanedFiles inst = (pre ++ f :: post)%list →
     (∀ f', f' ∈ pre → Encoding f' = YAML →
            ∃ a, yaml_Extract (Filename f') (Source_ f') (disk s) = Ok a) →
     Encoding f = YAML →
     yaml_Extract (Filename f) (Source_ f) (disk s) = Fail e →
     Build s = (s, Fail e)) ∧
  (∀ inst ix v e,
     load_Instances src (disk s) = inst :: ix → inst_Err inst = None →
     unify_orphans (BuildInstance inst) (OrphanedFiles inst) s = (s, Ok v) →
     Err v = Some e →
     Build s = (s, Fail e)) ∧
  (∀ inst ix v e,
     load_Instances src (disk s) = inst :: ix → inst_Err inst = None →
     unify_orphans (BuildInstance inst) (OrphanedFiles inst) s = (s, Ok v) →
     Err v = None → Validate v = Some e →
     Build s = (s, Fail e)) ∧
  (∀ s' e, Build s = (s', Fail e) →
     (load_Instances src (disk s) = [] ∧ e = New "no instances found") ∨
     ∃ inst ix, load_Instances src (disk s) = inst :: ix ∧
       ((∃ e0, inst_Err inst = Some e0 ∧ e = Wrapf "instance error: " e0 ∧
               Error e = "instance error: " +:+ Error e0) ∨
        (inst_Err inst = None ∧
         ∃ pre f post,
           OrphanedFiles inst = (pre ++ f :: post)%list ∧
           (∀ f', f' ∈ pre → Encoding f' = YAML →
              ∃ a, yaml_Extract (Filename f') (Source_ f') (disk s) = Ok a) ∧
           Encoding f = YAML ∧
           yaml_Extract (Filename f) (Source_ f) (disk s) = Fail e) ∨
        (inst_Err inst = None ∧
         ∃ v, unify_orphans (BuildInstance inst) (OrphanedFiles inst) s
              = (s, Ok v) ∧
              (Err v = Some e ∨ (Err v = None ∧ Validate v = Some e))))) ∧
  (∀ s' v, Build s = (s', Ok v) →
     ∃ inst ix, load_Instances src (disk s) = inst :: ix ∧
       inst_Err inst = None ∧
       (∀ f, f ∈ OrphanedFiles inst → Encoding f = YAML →
             ∃ a, yaml_Extract (Filename f) (Source_ f) (disk s) = Ok a) ∧
       Err v = None ∧ Validate v = None).
Proof.
  intros src stays inject_prefix. subst src stays inject_prefix.
  repeat match goal with |- _ ∧ _ => split end.
  - intros pre file post d1 d' e Hsrc Hc HC. unfold InitWorkspace. unfold_M.
    rewrite Hsrc, copy_loop_app, (copy_loop_all _ _ _ _ _ _ Hc). simpl.
    unfold_M. simpl. by rewrite HC.
  - intros d1 pre f post d2 d' e0 Hc Hst Hi HI. unfold InitWorkspace. unfold_M.
    rewrite (copy_loop_all _ _ _ _ _ _ Hc). simpl.
    change (imap _ (files (this s))) with (staged_files ws (files (this s))).
    rewrite Hst.
    by rewrite (inject_loop_Inject_fails pre f post
                  {| this := this s; disk := d1 |} d2 d' e0 Hi HI).
  - intros d1 pre f post d2 d3 data d' e0 Hc Hst Hi HI HW.
    unfold InitWorkspace. unfold_M.
    rewrite (copy_loop_all _ _ _ _ _ _ Hc). simpl.
    change (imap _ (files (this s))) with (staged_files ws (files (this s))).
    rewrite Hst.
    by rewrite (inject_loop_WriteFile_fails pre f post
                  {| this := this s; disk := d1 |} d2 d3 data d' e0 Hi HI HW).
  - intros d1 d2 d' e Hc Hi HW. unfold InitWorkspace. unfold_M.
    rewrite (copy_loop_all _ _ _ _ _ _ Hc). simpl.
    change (imap _ (files (this s))) with (staged_files ws (files (this s))).
    rewrite (inject_loop_all _ {| this := this s; disk := d1 |} d2 Hi). simpl.
    by rewrite HW.
  - intros s' e. unfold InitWorkspace. unfold_M.
    destruct (copy_loop ws 0 (files (this s)) [] s) as [s1 [fl|e1]] eqn:HC.
    + pose proof (copy_loop_this _ _ _ _ _ _ _ HC) as Ht1.
      pose proof (copy_loop_all_inv _ _ _ _ _ _ _ HC) as Hc.
      apply copy_loop_Ok in HC as (-> & _). simpl in *.
      change (imap _ (files (this s))) with (staged_files ws (files (this s))).
      destruct (inject_loop _ s1) as [s2 [[]|e2]] eqn:HI.
      * pose proof (inject_loop_this _ _ _ _ HI) as Ht2.
        pose proof (inject_loop_all_inv _ _ _ _ HI) as Hi.
        destruct (WriteFile _ _ (disk s2)) as [d [e3|]] eqn:HW; simpl; [|done].
        intros [= <- <-]. simpl. right. right.
        exists (disk s1), (disk s2). rewrite Ht2, Ht1 in HW. done.
      * intros [= <- <-]. right. left.
        apply inject_loop_Fail_at in HI
          as (pre & f & post & d2 & e0 & Hst & Hi & -> & Horigin).
        by exists (disk s1), pre, f, post, d2, e0.
    + intros [= <- <-]. left.
      by apply copy_loop_Fail_at in HC as (pre & file & post & d1 & ? & ? & ?);
        exists pre, file, post, d1.
  - intros HL. unfold Build. unfold_M. by rewrite HL.
  - intros inst ix e0 HL HI. unfold Build, build_instance. unfold_M.
    by rewrite HL, HI.
  - intros inst ix pre f post e HL HI HO Hpre Hy HX.
    unfold Build, build_instance. unfold_M.
    rewrite HL, HI, HO, unify_orphans_app.
    destruct (unify_orphans_extracts pre (BuildInstance inst) s Hpre) as [w ->].
    simpl. rewrite Hy. simpl. unfold_M. by rewrite HX.
  - intros inst ix v e HL HI HU HE. unfold Build, build_instance. unfold_M.
    by rewrite HL, HI, HU, HE.
  - intros inst ix v e HL HI HU HE HV. unfold Build, build_instance. unfold_M.
    by rewrite HL, HI, HU, HE, HV.
  - intros s' e [H|(inst & ix & HL & [H|[H|H]])]%Build_Fail; [by left|..];
      right; exists inst, ix; (split; [done|]).
    + left. destruct H as (e0 & ? & ->). by exists e0.
    + right. left. destruct H as (HI & H). split; [done|].
      by apply unify_orphans_Fail_at in H.
    + right. right. destruct H as (v & HI & HU & H). split; [done|].
      by exists v.
  - intros s' v (-> & inst & ix & HL & HI & HU & HE & HV)%Build_Ok.
    exists inst, ix. repeat (split; [done|]). split; [|done].
    by eapply unify_orphans_Ok.
Qed.

(** C8: the loop of [Build] merges the YAML data files and no other.
    Every YAML file is extracted and unified onto the value, from left
    to right, and this value is what [Build] then checks and returns;
    a YAML file that cannot be extracted ends the loop with its error.
    A file in another encoding is skipped: the loop does on a list
    what it does on the YAML files of the list, and such a file can be
    removed from the list without changing the value or the error. *)
Theorem Build_merges_only_YAML v orphans :
  (∀ s, unify_orphans v orphans s
        = unify_orphans v (filter (λ f, Encoding f = YAML) orphans) s) ∧
  (∀ pre f post, orphans = (pre ++ f :: post)%list → Encoding f ≠ YAML →
     ∀ s, unify_orphans v orphans s = unify_orphans v (pre ++ post) s) ∧
  (∀ s asts,
     Forall2 (λ f a, yaml_Extract (Filename f) (Source_ f) (disk s) = Ok a)
             (filter (λ f, Encoding f = YAML) orphans) asts →
     unify_orphans v orphans s
     = (s, Ok (fold_left (λ acc a, Unify acc (BuildFile a)) asts v))) ∧
  (∀ s pre f post e,
     orphans = (pre ++ f :: post)%list →
     (∀ f', f' ∈ pre → Encoding f' = YAML →
            ∃ a, yaml_Extract (Filename f') (Source_ f') (disk s) = Ok a) →
     Encoding f = YAML →
     yaml_Extract (Filename f) (Source_ f) (disk s) = Fail e →
     unify_orphans v orphans s = (s, Fail e)) ∧
  (∀ s inst ix asts,
     load_Instances (files (this s)) (disk s) = inst :: ix →
     inst_Err inst = None →
     BuildInstance inst = v → OrphanedFiles inst = orphans →
     Forall2 (λ f a, yaml_Extract (Filename f) (Source_ f) (disk s) = Ok a)
             (filter (λ f, Encoding f = YAML) orphans) asts →
     let merged := fold_left (λ acc a, Unify acc (BuildFile a)) asts v in
     Build s
     = (s, match Err merged with
           | Some e => Fail e
           | None =>
               match Validate merged with
               | Some e => Fail e
               | None => Ok merged
               end
           end)).
Proof.
  split; [|split; [|split; [|split]]].
  - intros s. apply unify_orphans_filter.
  - intros pre f post -> Hf s. by apply unify_orphans_skip.
  - intros s asts. apply unify_orphans_Forall2.
  - intros s pre f post e -> Hpre Hy HX. rewrite unify_orphans_app.
    destruct (unify_orphans_extracts pre v s Hpre) as [w ->].
    simpl. rewrite Hy. simpl. unfold_M. by rewrite HX.
  - intros s inst ix asts HL HI <- <- HX merged. subst merged.
    unfold Build, build_instance. unfold_M.
    rewrite HL, HI, (unify_orphans_Forall2 _ _ _ _ HX).
    destruct (Err _); [done|]. by destruct (Validate _).
Qed.

End More.

(** ** More runs on the reference engine *)
Section MoreRuns.
Import Ref Examples MoreExamples.

Lemma InitWorkspace_succeeds_iff_witness :
  InitWorkspace "/ws" sources = ((InitWorkspace "/ws" sources).1, Ok tt) ∧
  ∃ d1 d2,
    copy_all "/ws" 0 (files (this sources)) (disk sources) = Some d1 ∧
    inject_all (staged_files "/ws" (files (this sources))) d1 = Some d2 ∧
    WriteFile "/ws/4.schema.cue" BundleSchema d2
    = (disk (InitWorkspace "/ws" sources).1, None).
Proof.
  split; [reflexivity|].
  destruct (proj1 (InitWorkspace_succeeds_iff (W:=world) (A:=api) "/ws" sources
                     (InitWorkspace "/ws" sources).1) eq_refl)
    as (d1 & d2 & Hc & Hi & Hw & _).
  exists d1, d2. split; [exact Hc|]. split; [exact Hi|exact Hw].
Defined.

Lemma InitWorkspace_copy_failure_witness :
  InitWorkspace "/ws" sources_missing
  = ({| this := this sources_missing;
        disk := [("/ws/0.bundle.cue", "bundle.name: demo");
                 ("/src/bundle.cue", "bundle.name: demo")] |},
     Fail (New "open /src/over.yaml: no such file or directory")).
Proof.
  exact (InitWorkspace_copy_failure (W:=world) (A:=api) "/ws" sources_missing
           ["/src/bundle.cue"] "/src/over.yaml" [] _ _ _
           eq_refl eq_refl eq_refl).
Defined.

Lemma InitWorkspace_injection_failure_witness :
  InitWorkspace "/ws" sources_unresolved
  = ({| this := this sources_unresolved;
        disk := [("/ws/0.bundle.cue",
                  "bundle.name: demo" +:+ nl +:+ "@timoni(runtime:string:TOKEN)");
                 ("/src/bundle.cue",
                  "bundle.name: demo" +:+ nl +:+ "@timoni(runtime:string:TOKEN)")] |},
     Fail (Wrapf "failed to inject 0.bundle.cue: "
             (New "unresolved attribute @timoni(runtime:string:TOKEN)"))).
Proof.
  exact (proj1 (InitWorkspace_injection_failure (W:=world) (A:=api) "/ws"
                  sources_unresolved _ [] "/ws/0.bundle.cue" [] _
                  eq_refl eq_refl eq_refl) _ _ eq_refl).
Defined.

Lemma InitWorkspace_schema_write_failure_witness :
  copy_all (W:=world_blocked) "/ws" 0 ["/src/bundle.cue"] (disk sources_blocked)
  = Some [("/ws/0.bundle.cue", "bundle.name: demo");
          ("/src/bundle.cue", "bundle.name: demo")] ∧
  InitWorkspace (W:=world_blocked) "/ws" sources_blocked
  = (@Build_St world_blocked (this sources_blocked)
       [("/ws/0.bundle.cue", "bundle.name: demo");
        ("/ws/0.bundle.cue", "bundle.name: demo");
        ("/src/bundle.cue", "bundle.name: demo")],
     Fail (New "open /ws/2.schema.cue: is a directory")).
Proof.
  split; [reflexivity|].
  exact (InitWorkspace_schema_write_failure (W:=world_blocked) (A:=api) "/ws"
           sources_blocked _ _ _ _ eq_refl eq_refl eq_refl).
Defined.

Lemma InitWorkspace_files_distinct_witness :
  files (this (InitWorkspace "/ws" sources_same_name).1)
  = ["/ws/0.values.cue"; "/ws/1.values.cue"; "/ws/3.schema.cue"] ∧
  NoDup (files (this (InitWorkspace "/ws" sources_same_name).1)).
Proof.
  split; [reflexivity|].
  exact (InitWorkspace_files_distinct (W:=world) (A:=api) "/ws" sources_same_name
           (InitWorkspace "/ws" sources_same_name).1 tt
           (λ i j fn fn' _ _ H, Join_inj "/ws" _ _ H) eq_refl).
Defined.

Lemma Build_merges_in_order_witness :
  Build (InitWorkspace "/ws" sources).1
  = ((InitWorkspace "/ws" sources).1,
     Ok (Struct [("bundle", Struct [
           ("name", Str "demo");
           ("instances", Struct [
              ("redis", Struct [
                 ("module", Struct [("url", Str "oci://registry/redis")]);
                 ("namespace", Str "prod")])])])])).
Proof.
  refine (Build_merges_in_order (E:=engine) (InitWorkspace "/ws" sources).1 _ _
            [parse "bundle.instances.redis.namespace: prod"]
            eq_refl eq_refl _).
  constructor; [reflexivity|constructor].
Defined.

Lemma Build_extract_failure_witness :
  Build staged_bad_yaml
  = (staged_bad_yaml,
     Fail (Wrapf "/ws/2.broken.yaml: " (New "syntax error: no mapping here"))).
Proof.
  refine (Build_extract_failure (E:=engine) staged_bad_yaml _ _
            [{| Filename := "/ws/1.name.yaml"; Encoding := "yaml";
                Source_ := "bundle.name: other" |}]
            {| Filename := "/ws/2.broken.yaml"; Encoding := "yaml";
               Source_ := "no mapping here" |}
            [] _ eq_refl eq_refl eq_refl _ eq_refl eq_refl).
  intros f' Hf' _. apply list_elem_of_singleton in Hf'. rewrite Hf'.
  eexists. reflexivity.
Defined.

Lemma GetBundle_fails_iff_witness :
  String_ (LookupPath tree_name_struct (ParsePath BundleName))
  = Fail (New "cannot use value as string") ∧
  GetBundle tree_name_struct
  = Fail (New "lookup bundle.name failed: %!w(<nil>)").
Proof.
  split; [reflexivity|].
  exact (proj2 (GetBundle_fails_iff (E:=engine) (A:=api) tree_name_struct
                  (New "")) _ eq_refl eq_refl).
Defined.

Lemma GetBundle_values_unchecked_witness :
  ∃ b, GetBundle tree_two = Ok b ∧
    BI_Values <$> Instances b
    = [Bottom (New "field not found: values");
       Bottom (New "field not found: values")].
Proof.
  exact (GetBundle_values_unchecked (E:=engine) (A:=api) tree_two "demo" _
           eq_refl eq_refl eq_refl).
Defined.

Lemma InitWorkspace_twice_witness :
  files (this (InitWorkspace "/ws2" (InitWorkspace "/ws" sources).1).1) !! 3
  = Some "/ws2/3.4.schema.cue" ∧
  files (this (InitWorkspace "/ws2" (InitWorkspace "/ws" sources).1).1) !! 4
  = Some "/ws2/5.schema.cue".
Proof.
  assert (InitWorkspace "/ws" sources = ((InitWorkspace "/ws" sources).1, Ok tt))
    as Hfirst by reflexivity.
  assert (InitWorkspace "/ws2" (InitWorkspace "/ws" sources).1
          = ((InitWorkspace "/ws2" (InitWorkspace "/ws" sources).1).1, Ok tt))
    as Hsecond by reflexivity.
  destruct (InitWorkspace_twice (W:=world) (A:=api) "/ws" "/ws2" sources
              _ _ tt tt Hfirst Hsecond) as (_ & _ & H3 & H4).
  split; [exact H3|exact H4].
Defined.

Lemma fresh_builder_pipeline_witness :
  (Build (InitWorkspace "/ws" sources).1).1 = (InitWorkspace "/ws" sources).1 ∧
  files (this (Build (InitWorkspace "/ws" sources).1).1)
  = ["/ws/0.bundle.cue"; "/ws/1.over.yaml"; "/ws/2.notes.txt"; "/ws/4.schema.cue"].
Proof.
  assert (InitWorkspace "/ws" sources = ((InitWorkspace "/ws" sources).1, Ok tt))
    as Hinit by reflexivity.
  assert (∃ v, Build (InitWorkspace "/ws" sources).1
               = ((Build (InitWorkspace "/ws" sources).1).1, Ok v))
    as [v Hbuild] by (eexists; reflexivity).
  destruct (fresh_builder_pipeline (E:=engine) (A:=api)
              (files (this sources)) (disk sources) "/ws" _ tt _ v
              Hinit Hbuild) as (H1 & H2 & _).
  split; [exact H1|exact H2].
Defined.

Lemma InitWorkspace_no_sources_witness :
  InitWorkspace "/ws" no_sources
  = ({| this := {| files := ["/ws/1.schema.cue"] |};
        disk := [("/ws/1.schema.cue", BundleSchema)] |}, Ok tt).
Proof.
  exact (InitWorkspace_no_sources (W:=world) (A:=api) "/ws" no_sources eq_refl).
Defined.

(** C5, counterexample: a source with a line that is no field.  The
    engine reports the error on the merged value and [Build] returns
    this very error: nothing is wrapped around it, and its message
    holds neither the name of a staged file nor a field path (no dot
    and no label of the document). *)
Lemma Build_engine_error_is_not_wrapped :
  Err (BuildInstance
         (load (files (this staged_syntax)) (disk staged_syntax)
            {| l_Err := None; l_Orphaned := []; l_Root := Struct [] |}))
  = Some (New "syntax error: no mapping here") ∧
  Build staged_syntax
  = (staged_syntax, Fail (New "syntax error: no mapping here")) ∧
  Unwrap (New "syntax error: no mapping here") = None ∧
  String.index 0 "0.bundle.cue" "syntax error: no mapping here" = None ∧
  String.index 0 "2.schema.cue" "syntax error: no mapping here" = None ∧
  String.index 0 "." "syntax error: no mapping here" = None ∧
  String.index 0 "bundle" "syntax error: no mapping here" = None ∧
  String.index 0 "name" "syntax error: no mapping here" = None ∧
  String.index 0 "instances" "syntax error: no mapping here" = None.
Proof. by vm_compute. Qed.

Lemma pipeline_errors_witness :
  copy_all "/ws" 0 (files (this sources_unresolved)) (disk sources_unresolved)
  = Some [("/ws/0.bundle.cue",
           "bundle.name: demo" +:+ nl +:+ "@timoni(runtime:string:TOKEN)");
          ("/src/bundle.cue",
           "bundle.name: demo" +:+ nl +:+ "@timoni(runtime:string:TOKEN)")] ∧
  InitWorkspace "/ws" sources_unresolved
  = ({| this := this sources_unresolved;
        disk := [("/ws/0.bundle.cue",
                  "bundle.name: demo" +:+ nl +:+ "@timoni(runtime:string:TOKEN)");
                 ("/src/bundle.cue",
                  "bundle.name: demo" +:+ nl +:+ "@timoni(runtime:string:TOKEN)")] |},
     Fail (Wrapf "failed to inject 0.bundle.cue: "
             (New "unresolved attribute @timoni(runtime:string:TOKEN)"))) ∧
  Build staged_syntax
  = (staged_syntax, Fail (New "syntax error: no mapping here")).
Proof.
  split; [reflexivity|].
  destruct (pipeline_errors (E:=engine) (A:=api) "/ws" sources_unresolved)
    as (_ & Hinject & _).
  destruct (pipeline_errors (E:=engine) (A:=api) "/ws" staged_syntax)
    as (_ & _ & _ & _ & _ & _ & _ & _ & Herr & _).
  split.
  - exact (Hinject _ [] "/ws/0.bundle.cue" [] _ _ _
             eq_refl eq_refl eq_refl eq_refl).
  - exact (Herr _ _ _ _ eq_refl eq_refl eq_refl eq_refl).
Defined.

Lemma Build_merges_only_YAML_witness :
  Encoding <$> OrphanedFiles
    (load (files (this (InitWorkspace "/ws" sources).1))
          (disk (InitWorkspace "/ws" sources).1)
          {| l_Err := None; l_Orphaned := []; l_Root := Struct [] |})
  = ["yaml"; "txt"] ∧
  Build (InitWorkspace "/ws" sources).1
  = ((InitWorkspace "/ws" sources).1,
     Ok (Struct [("bundle", Struct [
           ("name", Str "demo");
           ("instances", Struct [
              ("redis", Struct [
                 ("module", Struct [("url", Str "oci://registry/redis")]);
                 ("namespace", Str "prod")])])])])).
Proof.
  split; [reflexivity|].
  refine (proj2 (proj2 (proj2 (proj2
            (Build_merges_only_YAML (E:=engine) _ _))))
            (InitWorkspace "/ws" sources).1 _ _
            [parse "bundle.instances.redis.namespace: prod"]
            eq_refl eq_refl eq_refl eq_refl _).
  constructor; [reflexivity|constructor].
Defined.

End MoreRuns.
